(** * Contract analysis multi-agent system: orchestration, PDF extraction
      and persistence

    A shallow embedding of [contract_analysis_system.py]:
    - [extract_text_from_pdf]  (PDF text extraction with per-page fallback),
    - [analyze_contract]       (three specialist stages, then the manager),
    - [save_analysis_results]  (sanitised, timestamped JSON dump).

    Python [str] values are lists of Unicode code points.  Everything
    outside the program (file system, hosted models, PDF library) is an
    abstract environment [Env]; the calls into it are state transformers on
    [Env] that either return or raise.  Console output is kept as the list
    of printed texts, one per call of [print]; [print] itself is taken
    never to raise, and the exceptions of the model are those deriving from
    Python's [Exception] (what every [except Exception] handler of the
    source catches). *)

From Stdlib Require Import String Ascii DecimalString.
From Stdlib Require Import ZArith NArith List PrimFloat Uint63 Lia Sorted.
From stdpp Require Import base option list gmap.
Import ListNotations.

Set Warnings "-inexact-float,-register-all,-abstract-large-number".

(* ===================================================================== *)
(** ** Python strings                                                     *)
(* ===================================================================== *)

Module PyStr.

Abbreviation char := N.
Abbreviation str := (list N).

(** Decoder for the UTF-8 bytes of a literal of this file: [pending]
    continuation bytes are still expected for the code point [acc]. *)
Fixpoint utf8_decode (pending : nat) (acc : N) (bs : list N) : str :=
  match bs with
  | [] => []
  | b :: bs' =>
      match pending with
      | S k =>
          let acc' := (acc * 64 + b mod 64)%N in
          match k with
          | O => acc' :: utf8_decode 0 0%N bs'
          | S _ => utf8_decode k acc' bs'
          end
      | O =>
          if (b <? 128)%N then b :: utf8_decode 0 0%N bs'
          else if (b <? 224)%N then utf8_decode 1 (b mod 32)%N bs'
          else if (b <? 240)%N then utf8_decode 2 (b mod 16)%N bs'
          else utf8_decode 3 (b mod 8)%N bs'
      end
  end.

(** A string literal of the source. *)
Definition lit (s : string) : str :=
  utf8_decode 0 0%N (map N_of_ascii (list_ascii_of_string s)).

(** [c * n] for a one-character string [c]. *)
Definition times (c : char) (n : nat) : str := repeat c n.

(** [sep.join(parts)]. *)
Fixpoint join (sep : str) (parts : list str) : str :=
  match parts with
  | [] => []
  | [p] => p
  | p :: ps => p ++ sep ++ join sep ps
  end.

(** [str(n)] for a non-negative integer. *)
Definition str_of_nat (n : nat) : str :=
  lit (NilZero.string_of_uint (Nat.to_uint n)).

(** Comma insertion on reversed digits, one after every complete group of
    three that is followed by more digits. *)
Fixpoint commas_rev (ds : str) : str :=
  match ds with
  | a :: b :: c :: ((_ :: _) as rest) => a :: b :: c :: 44%N :: commas_rev rest
  | _ => ds
  end.

(** [f"{n:,}"] for a non-negative integer. *)
Definition format_thousands (n : nat) : str :=
  reverse (commas_rev (reverse (str_of_nat n))).

(** [c.isspace()]: the white-space code points of CPython. *)
Definition isspace (c : char) : bool :=
  ((9 <=? c) && (c <=? 13) || (28 <=? c) && (c <=? 32)
   || (c =? 133) || (c =? 160) || (c =? 5760)
   || (8192 <=? c) && (c <=? 8202)
   || (c =? 8232) || (c =? 8233) || (c =? 8239) || (c =? 8287)
   || (c =? 12288))%N.

Fixpoint lstrip (s : str) : str :=
  match s with
  | c :: s' => if isspace c then lstrip s' else s
  | [] => []
  end.

Definition rstrip (s : str) : str := reverse (lstrip (reverse s)).

(** [s.strip()]. *)
Definition strip (s : str) : str := rstrip (lstrip s).

(** Truth value of a string: non-empty. *)
Definition truthy (s : str) : bool :=
  match s with [] => false | _ :: _ => true end.

Definition is_ascii_digit (c : char) : bool := ((48 <=? c) && (c <=? 57))%N.
Definition is_ascii_alpha (c : char) : bool :=
  ((65 <=? c) && (c <=? 90) || (97 <=? c) && (c <=? 122))%N.

End PyStr.
Import PyStr.

(* ===================================================================== *)
(** ** Python values carried by the open-ended dictionaries               *)
(* ===================================================================== *)

Inductive value : Type :=
  | VStr (s : str)
  | VInt (z : Z)
  | VFloat (f : float)
  | VNone
  | VObj (repr : str)                 (* any other object, by its repr *)
  | VList (l : list value)
  | VDict (d : gmap str value).

(** [datetime] objects as returned by [datetime.now()]. *)
Record datetime := {
  year : N; month : N; day : N;
  hour : N; minute : N; second : N; microsecond : N
}.

Definition digit (n : N) : char := (48 + n mod 10)%N.
Definition pad2 (n : N) : str := [digit (n / 10); digit n].
Definition pad4 (n : N) : str :=
  [digit (n / 1000); digit (n / 100); digit (n / 10); digit n].
Definition pad6 (n : N) : str :=
  [digit (n / 100000); digit (n / 10000); digit (n / 1000);
   digit (n / 100); digit (n / 10); digit n].

(** [d.isoformat()]. *)
Definition isoformat (d : datetime) : str :=
  pad4 (year d) ++ lit "-" ++ pad2 (month d) ++ lit "-" ++ pad2 (day d)
  ++ lit "T" ++ pad2 (hour d) ++ lit ":" ++ pad2 (minute d)
  ++ lit ":" ++ pad2 (second d)
  ++ (if (microsecond d =? 0)%N then [] else lit "." ++ pad6 (microsecond d)).

(** [d.strftime("%Y%m%d_%H%M%S")]. *)
Definition strftime_Ymd_HMS (d : datetime) : str :=
  pad4 (year d) ++ pad2 (month d) ++ pad2 (day d)
  ++ lit "_" ++ pad2 (hour d) ++ pad2 (minute d) ++ pad2 (second d).

(** [d.strftime('%Y-%m-%d %H:%M:%S')]. *)
Definition strftime_Y_m_d_H_M_S (d : datetime) : str :=
  pad4 (year d) ++ lit "-" ++ pad2 (month d) ++ lit "-" ++ pad2 (day d)
  ++ lit " " ++ pad2 (hour d) ++ lit ":" ++ pad2 (minute d)
  ++ lit ":" ++ pad2 (second d).

(* ===================================================================== *)
(** ** Exceptions, and computations that may raise                        *)
(* ===================================================================== *)

(** An exception, by what [str(e)] gives. *)
Record Exc := { exc_str : str }.

Inductive Result (A : Type) : Type :=
  | Returns (a : A)
  | Raises (e : Exc).
Arguments Returns {A} a.
Arguments Raises {A} e.

Module Eff.

(** A computation over a state [S]: it returns or raises, and the state
    changes made before a [raise] are kept. *)
Definition M (S A : Type) : Type := S -> Result A * S.

Definition ret {S A} (a : A) : M S A := fun s => (Returns a, s).

Definition bind {S A B} (m : M S A) (k : A -> M S B) : M S B :=
  fun s =>
    match m s with
    | (Returns a, s') => k a s'
    | (Raises e, s') => (Raises e, s')
    end.

Definition raise {S A} (e : Exc) : M S A := fun s => (Raises e, s).

(** [try: body / except Exception as e: handler e]. *)
Definition try_except {S A} (body : M S A) (handler : Exc -> M S A) : M S A :=
  fun s =>
    match body s with
    | (Returns a, s') => (Returns a, s')
    | (Raises e, s') => handler e s'
    end.

Definition gets {S A} (f : S -> A) : M S A := fun s => (Returns (f s), s).
Definition modify {S} (f : S -> S) : M S unit := fun s => (Returns tt, f s).

(** Run a computation on a component of the state. *)
Definition zoom {S T A} (get : S -> T) (set : T -> S -> S) (m : M T A) : M S A :=
  fun s => let '(r, t') := m (get s) in (r, set t' s).

End Eff.
Import Eff.

Declare Scope eff_scope.
Delimit Scope eff_scope with eff.
Notation "x <- m ;; k" := (bind m (fun x => k))
  (at level 100, m at next level, right associativity) : eff_scope.
Notation "m ;;; k" := (bind m (fun _ => k))
  (at level 100, right associativity) : eff_scope.
Open Scope eff_scope.

(* ===================================================================== *)
(** ** The program's world                                                *)
(* ===================================================================== *)

Section System.

(** State of everything outside the program. *)
Context {Env : Type}.

(** The [k]-th call of [datetime.now()] of a run reads [clock k]. *)
Variable clock : nat -> datetime.

Record World := {
  env : Env;                (* files, network, hosted models *)
  ticks : nat;              (* calls of datetime.now() so far *)
  stdout : list str         (* lines printed so far *)
}.

(** A function body with one local list variable that its [try] blocks
    mutate in place. *)
Record Frame (X : Type) := {
  world : World;
  local : list X
}.
Arguments world {X} f.
Arguments local {X} f.

Definition print (line : str) : M World unit :=
  modify (fun w => {| env := env w; ticks := ticks w; stdout := stdout w ++ [line] |}).

Definition datetime_now : M World datetime :=
  fun w => (Returns (clock (ticks w)),
            {| env := env w; ticks := S (ticks w); stdout := stdout w |}).

(** A call into the environment. *)
Definition extern {A} (op : M Env A) : M World A :=
  zoom env (fun e w => {| env := e; ticks := ticks w; stdout := stdout w |}) op.

(** A statement of the body that does not touch the local list. *)
Definition io {X A} (m : M World A) : M (Frame X) A :=
  zoom world (fun w f => {| world := w; local := local f |}) m.

(** [xs.append(x)] on the local list. *)
Definition append {X} (x : X) : M (Frame X) unit :=
  modify (fun f => {| world := world f; local := local f ++ [x] |}).

(** Run a body whose local list starts as [init]; gives the body's value
    and keeps the world. *)
Definition with_local {X A} (init : list X) (body : M (Frame X) A) : M World A :=
  fun w => let '(r, f) := body {| world := w; local := init |} in (r, world f).

(* ===================================================================== *)
(** ** PDF extractor                                                      *)
(* ===================================================================== *)

(** A page of a [PyPDF2.PdfReader]: [page.extract_text()]. *)
Record Page := { extract_text : M Env str }.

(** [os.path.exists(p)], [os.access(p, os.R_OK)]. *)
Variable os_path_exists : str -> Env -> bool.
Variable os_access_R_OK : str -> Env -> bool.

(** [open(p, 'rb')] followed by [PyPDF2.PdfReader(file)] and the reading of
    [pdf_reader.pages]; any of them may raise. *)
Variable PdfReader_pages : str -> M Env (list Page).

Definition newline : str := [10%N].

Definition page_marker (page_num : nat) : str :=
  lit "--- Page " ++ str_of_nat (page_num + 1) ++ lit " ---".

(** The [for page_num, page in enumerate(pdf_reader.pages)] loop; the local
    list is [text_content]. *)
Fixpoint extract_pages (page_num : nat) (pages : list Page) : M (Frame str) unit :=
  match pages with
  | [] => ret tt
  | page :: rest =>
      try_except
        (page_text <- io (extern (extract_text page)) ;;
         if truthy (strip page_text) then
           append (page_marker page_num) ;;;
           append page_text
         else ret tt)
        (fun page_error =>
           io (print (lit "⚠️  Warning: Could not extract text from page "
                      ++ str_of_nat (page_num + 1) ++ lit ": "
                      ++ exc_str page_error))) ;;;
      extract_pages (S page_num) rest
  end.

Definition extract_text_from_pdf (pdf_path : str) : M World (option str) :=
  try_except
    (exists_ <- gets (fun w => os_path_exists pdf_path (env w)) ;;
     if negb exists_ then
       print (lit "❌ Error: File '" ++ pdf_path ++ lit "' does not exist") ;;;
       ret None
     else
     readable <- gets (fun w => os_access_R_OK pdf_path (env w)) ;;
     if negb readable then
       print (lit "❌ Error: No read permission for file '" ++ pdf_path ++ lit "'") ;;;
       ret None
     else
     pages <- extern (PdfReader_pages pdf_path) ;;
     if Nat.eqb (length pages) 0 then
       print (lit "❌ Error: PDF file appears to be empty") ;;;
       ret None
     else
     text_content <- with_local [] (extract_pages 0 pages ;;; gets local) ;;
     match text_content with
     | [] =>
         print (lit "❌ Warning: No readable text found in PDF") ;;;
         ret None
     | _ :: _ => ret (Some (join newline text_content))
     end)
    (fun e =>
       print (lit "❌ Error reading PDF: " ++ exc_str e) ;;;
       ret None).

(* ===================================================================== *)
(** ** Result model                                                       *)
(* ===================================================================== *)

(** Structured response from individual agents. *)
Record AgentResponse := {
  agent_name : str;
  timestamp : str;
  analysis_type : str;
  findings : gmap str value;
  recommendations : list str;
  risk_level : str;
  confidence_score : float
}.

(** Complete analysis result with full traceability. *)
Record ContractAnalysisResult := {
  contract_info : gmap str value;
  agent_responses : list AgentResponse;
  consolidated_findings : gmap str value;
  priority_recommendations : list str;
  risk_assessment : gmap str value;
  traceability_map : gmap str str;
  analysis_timestamp : str
}.

(* ===================================================================== *)
(** ** Agents                                                             *)
(* ===================================================================== *)

(** What [agent.run(prompt)] returns: an object that may or may not have a
    [content] attribute, and its [str()]. *)
Record Response := {
  content : option value;
  response_str : str
}.

(** An agent (or the manager team), by its blocking [run] call to the
    hosted model. *)
Record Agent := { run : str -> M Env Response }.

Record ContractAnalysisSystem := {
  agents : gmap str Agent;
  manager_agent : option Agent
}.

(** [str(d)] of a dictionary inside an f-string (Python built-in). *)
Variable dict_str : gmap str value -> str.

Definition KeyError (key : str) : Exc :=
  {| exc_str := lit "'" ++ key ++ lit "'" |}.

Definition AttributeError_None (attr : str) : Exc :=
  {| exc_str := lit "'NoneType' object has no attribute '" ++ attr ++ lit "'" |}.

Definition TypeError_not_iterable : Exc :=
  {| exc_str := lit "object is not iterable" |}.

(** [d[key]]. *)
Definition getitem {S A : Type} (d : gmap str A) (key : str) : M S A :=
  match d !! key with
  | Some a => ret a
  | None => raise (KeyError key)
  end.

(** [system.agents[key].run(prompt)]. *)
Definition agents_run (system : ContractAnalysisSystem) (key prompt : str)
  : M Env Response :=
  agent <- getitem (agents system) key ;;
  run agent prompt.

(** [system.manager_agent.run(prompt)]. *)
Definition manager_run (system : ContractAnalysisSystem) (prompt : str)
  : M Env Response :=
  match manager_agent system with
  | Some manager => run manager prompt
  | None => raise (AttributeError_None (lit "run"))
  end.

(** [r.content if hasattr(r, 'content') else str(r)]. *)
Definition content_or_str (r : Response) : value :=
  match content r with
  | Some v => v
  | None => VStr (response_str r)
  end.

(* ===================================================================== *)
(** ** Orchestrator                                                       *)
(* ===================================================================== *)

Definition structure_prompt (contract_text : str) : str :=
  lit "
    Analyze this contract's structure and organization.
    
    CONTRACT TO ANALYZE:
    "
  ++ contract_text
  ++ lit "
    
    Focus on completeness, organization, and structural integrity.
    ".

Definition legal_prompt (contract_text : str) : str :=
  lit "
    Conduct legal compliance and risk assessment for this contract. Provide analysis in JSON format.
    
    CONTRACT TO ANALYZE:
    "
  ++ contract_text
  ++ lit "
    
    Focus on enforceability, compliance, and legal risk factors.
    ".

Definition negotiation_prompt (contract_text : str) : str :=
  lit "
    Develop negotiation strategy and optimization recommendations for this contract. Provide analysis in JSON format.
    
    CONTRACT TO ANALYZE:
    "
  ++ contract_text
  ++ lit "
    
    Focus on leverage, optimization opportunities, and strategic recommendations.
    ".

Definition consolidation_prompt (contract_name : str)
    (structure_analysis legal_analysis negotiation_analysis : AgentResponse) : str :=
  lit "
    CONSOLIDATE AND SYNTHESIZE the following agent analyses with FULL TRACEABILITY:

    CONTRACT NAME: "
  ++ contract_name
  ++ lit "
    
    STRUCTURE AGENT FINDINGS:
    "
  ++ dict_str (findings structure_analysis)
  ++ lit "
    
    LEGAL AGENT FINDINGS: 
    "
  ++ dict_str (findings legal_analysis)
  ++ lit "
    
    NEGOTIATION AGENT FINDINGS:
    "
  ++ dict_str (findings negotiation_analysis)
  ++ lit "
    
    Your task as Manager is to:
    1. Synthesize these 3 perspectives into unified insights
    2. Maintain complete traceability to source agents
    3. Resolve conflicts between agent recommendations  
    4. Prioritize actions by business impact and risk
    5. Create implementation roadmap
    
    CRITICAL: Every recommendation must cite which agent(s) contributed to it.
    ".

(** Step 1, success: the record built in the [try] body. *)
Definition structure_success (structure_response : Response) (now : datetime)
  : AgentResponse :=
  {| agent_name := lit "ContractStructureAgent";
     timestamp := isoformat now;
     analysis_type := lit "structural_analysis";
     findings := {[ lit "raw_response" := content_or_str structure_response ]};
     recommendations := [];
     risk_level := lit "PENDING";
     confidence_score := 0.8 |}.

(** Step 1, failure: the record built in the [except] handler. *)
Definition structure_failure (e : Exc) (now : datetime) : AgentResponse :=
  {| agent_name := lit "ContractStructureAgent";
     timestamp := isoformat now;
     analysis_type := lit "structural_analysis";
     findings := {[ lit "error" := VStr (exc_str e) ]};
     recommendations := [lit "Manual structure review required"];
     risk_level := lit "HIGH";
     confidence_score := 0.3 |}.

Definition legal_success (legal_response : Response) (now : datetime)
  : AgentResponse :=
  {| agent_name := lit "LegalFrameworkAgent";
     timestamp := isoformat now;
     analysis_type := lit "legal_compliance";
     findings := {[ lit "raw_response" := content_or_str legal_response ]};
     recommendations := [];
     risk_level := lit "PENDING";
     confidence_score := 0.85 |}.

Definition legal_failure (e : Exc) (now : datetime) : AgentResponse :=
  {| agent_name := lit "LegalFrameworkAgent";
     timestamp := isoformat now;
     analysis_type := lit "legal_compliance";
     findings := {[ lit "error" := VStr (exc_str e) ]};
     recommendations := [lit "Legal review by qualified attorney required"];
     risk_level := lit "HIGH";
     confidence_score := 0.2 |}.

Definition negotiation_success (negotiation_response : Response) (now : datetime)
  : AgentResponse :=
  {| agent_name := lit "NegotiationAgent";
     timestamp := isoformat now;
     analysis_type := lit "negotiation_strategy";
     findings := {[ lit "raw_response" := content_or_str negotiation_response ]};
     recommendations := [];
     risk_level := lit "PENDING";
     confidence_score := 0.75 |}.

Definition negotiation_failure (e : Exc) (now : datetime) : AgentResponse :=
  {| agent_name := lit "NegotiationAgent";
     timestamp := isoformat now;
     analysis_type := lit "negotiation_strategy";
     findings := {[ lit "error" := VStr (exc_str e) ]};
     recommendations := [lit "Manual negotiation strategy development required"];
     risk_level := lit "MEDIUM";
     confidence_score := 0.4 |}.

(** The local list of the body of [analyze_contract] is [agent_responses];
    each step gives the value its [try] statement leaves in
    [structure_analysis], [legal_analysis] and [negotiation_analysis]. *)
Definition structure_step (system : ContractAnalysisSystem) (contract_text : str)
  : M (Frame AgentResponse) AgentResponse :=
  try_except
    (io (print (lit "📋 Structure Agent analyzing...")) ;;;
     structure_response <-
       io (extern (agents_run system (lit "structure") (structure_prompt contract_text))) ;;
     now <- io datetime_now ;;
     let structure_analysis := structure_success structure_response now in
     append structure_analysis ;;;
     io (print (lit "✅ Structure analysis completed")) ;;;
     ret structure_analysis)
    (fun e =>
     io (print (lit "❌ Structure Agent error: " ++ exc_str e)) ;;;
     now <- io datetime_now ;;
     let structure_analysis := structure_failure e now in
     append structure_analysis ;;;
     ret structure_analysis).

Definition legal_step (system : ContractAnalysisSystem) (contract_text : str)
  : M (Frame AgentResponse) AgentResponse :=
  try_except
    (io (print (lit "🏛️  Legal Agent analyzing...")) ;;;
     legal_response <-
       io (extern (agents_run system (lit "legal") (legal_prompt contract_text))) ;;
     now <- io datetime_now ;;
     let legal_analysis := legal_success legal_response now in
     append legal_analysis ;;;
     io (print (lit "✅ Legal analysis completed")) ;;;
     ret legal_analysis)
    (fun e =>
     io (print (lit "❌ Legal Agent error: " ++ exc_str e)) ;;;
     now <- io datetime_now ;;
     let legal_analysis := legal_failure e now in
     append legal_analysis ;;;
     ret legal_analysis).

Definition negotiation_step (system : ContractAnalysisSystem) (contract_text : str)
  : M (Frame AgentResponse) AgentResponse :=
  try_except
    (io (print (lit "💼 Negotiation Agent analyzing...")) ;;;
     negotiation_response <-
       io (extern (agents_run system (lit "negotiation")
                     (negotiation_prompt contract_text))) ;;
     now <- io datetime_now ;;
     let negotiation_analysis := negotiation_success negotiation_response now in
     append negotiation_analysis ;;;
     io (print (lit "✅ Negotiation analysis completed")) ;;;
     ret negotiation_analysis)
    (fun e =>
     io (print (lit "❌ Negotiation Agent error: " ++ exc_str e)) ;;;
     now <- io datetime_now ;;
     let negotiation_analysis := negotiation_failure e now in
     append negotiation_analysis ;;;
     ret negotiation_analysis).

(** Step 4, success: the final analysis result. *)
Definition manager_success (contract_name contract_text : str)
    (agent_responses : list AgentResponse) (manager_response : Response)
    (now1 now2 : datetime) : ContractAnalysisResult :=
  {| contract_info :=
       {[ lit "name" := VStr contract_name;
          lit "length" := VInt (Z.of_nat (length contract_text));
          lit "analysis_date" := VStr (isoformat now1) ]};
     agent_responses := agent_responses;
     consolidated_findings :=
       {[ lit "manager_synthesis" := content_or_str manager_response ]};
     priority_recommendations := [];
     risk_assessment := ∅;
     traceability_map :=
       {[ lit "structure_agent" := lit "ContractStructureAgent";
          lit "legal_agent" := lit "LegalFrameworkAgent";
          lit "negotiation_agent" := lit "NegotiationAgent";
          lit "manager_agent" := lit "ContractAnalysisManager" ]};
     analysis_timestamp := isoformat now2 |}.

(** Step 4, failure: partial results even if the manager fails. *)
Definition manager_failure (contract_name contract_text : str)
    (agent_responses : list AgentResponse) (e : Exc)
    (now1 now2 : datetime) : ContractAnalysisResult :=
  {| contract_info :=
       {[ lit "name" := VStr contract_name;
          lit "length" := VInt (Z.of_nat (length contract_text));
          lit "analysis_date" := VStr (isoformat now1) ]};
     agent_responses := agent_responses;
     consolidated_findings :=
       {[ lit "error" := VStr (lit "Manager consolidation failed: " ++ exc_str e) ]};
     priority_recommendations := [lit "Manual review and consolidation required"];
     risk_assessment :=
       {[ lit "overall_risk" := VStr (lit "UNKNOWN - Analysis incomplete") ]};
     traceability_map :=
       {[ lit "structure_agent" := lit "ContractStructureAgent";
          lit "legal_agent" := lit "LegalFrameworkAgent";
          lit "negotiation_agent" := lit "NegotiationAgent";
          lit "manager_agent" := lit "ContractAnalysisManager (FAILED)" ]};
     analysis_timestamp := isoformat now2 |}.

Definition manager_step (system : ContractAnalysisSystem)
    (contract_text contract_name : str)
    (structure_analysis legal_analysis negotiation_analysis : AgentResponse)
  : M (Frame AgentResponse) ContractAnalysisResult :=
  let consolidation_prompt :=
    consolidation_prompt contract_name
      structure_analysis legal_analysis negotiation_analysis in
  try_except
    (io (print (lit "👨‍💼 Manager Agent consolidating...")) ;;;
     manager_response <- io (extern (manager_run system consolidation_prompt)) ;;
     io (print (lit "✅ Management consolidation completed")) ;;;
     now1 <- io datetime_now ;;
     agent_responses <- gets local ;;
     now2 <- io datetime_now ;;
     ret (manager_success contract_name contract_text
            agent_responses manager_response now1 now2))
    (fun e =>
     io (print (lit "❌ Manager Agent error: " ++ exc_str e)) ;;;
     now1 <- io datetime_now ;;
     agent_responses <- gets local ;;
     now2 <- io datetime_now ;;
     ret (manager_failure contract_name contract_text
            agent_responses e now1 now2)).

Definition analyze_contract (system : ContractAnalysisSystem)
    (contract_text contract_name : str) : M World ContractAnalysisResult :=
  with_local []
    (io (print (newline ++ times 61 80)) ;;;
     io (print (lit "🏢 CONTRACT ANALYSIS: " ++ contract_name)) ;;;
     io (print (times 61 80)) ;;;
     io (print (lit "📄 Contract Length: "
                ++ format_thousands (length contract_text)
                ++ lit " characters")) ;;;
     started <- io datetime_now ;;
     io (print (lit "⏰ Analysis Started: " ++ strftime_Y_m_d_H_M_S started)) ;;;
     io (print (times 61 80)) ;;;
     (* Step 1: Structure Agent Analysis *)
     io (print (newline ++ lit "🏗️  PHASE 1: STRUCTURAL ANALYSIS")) ;;;
     io (print (times 45 40)) ;;;
     structure_analysis <- structure_step system contract_text ;;
     (* Step 2: Legal Agent Analysis *)
     io (print (newline ++ lit "⚖️  PHASE 2: LEGAL COMPLIANCE ANALYSIS")) ;;;
     io (print (times 45 40)) ;;;
     legal_analysis <- legal_step system contract_text ;;
     (* Step 3: Negotiation Agent Analysis *)
     io (print (newline ++ lit "🤝 PHASE 3: NEGOTIATION STRATEGY ANALYSIS")) ;;;
     io (print (times 45 40)) ;;;
     negotiation_analysis <- negotiation_step system contract_text ;;
     (* Step 4: Manager Consolidation *)
     io (print (newline ++ lit "🎯 PHASE 4: MANAGEMENT CONSOLIDATION & TRACEABILITY")) ;;;
     io (print (times 45 40)) ;;;
     manager_step system contract_text contract_name
       structure_analysis legal_analysis negotiation_analysis).

(* ===================================================================== *)
(** ** Persistence                                                        *)
(* ===================================================================== *)

(** [c.isalnum()] on code points above ASCII (Unicode character data). *)
Variable unicode_isalnum : char -> bool.

(** [c.isalnum()]. *)
Definition isalnum (c : char) : bool :=
  if (c <? 128)%N then is_ascii_digit c || is_ascii_alpha c
  else unicode_isalnum c.

(** [c.isalnum() or c in (' ', '-', '_')]. *)
Definition keeps (c : char) : bool :=
  isalnum c || ((c =? 32) || (c =? 45) || (c =? 95))%N.

(** The cleaned contract name of [save_analysis_results]. *)
Definition contract_name_clean (name : str) : str :=
  strip (filter (fun c => keeps c = true) name).


Definition analysis_filename (contract_name_clean timestamp : str) : str :=
  lit "contract_analysis_" ++ contract_name_clean ++ lit "_" ++ timestamp
  ++ lit ".json".

(** [Path(output_dir).mkdir(exist_ok=True)]. *)
Variable Path_mkdir : str -> M Env unit.

(** [str(Path(output_dir) / filename)]. *)
Variable Path_joined : str -> str -> str.

(** [open(filepath, 'w', encoding='utf-8')]. *)
Variable open_w : str -> M Env unit.

(** [json.dump(result_dict, f, indent=2, ensure_ascii=False)] into the
    file opened at the path, and the closing of the file. *)
Variable json_dump : value -> str -> M Env unit.

(** [asdict] on the two dataclasses. *)
Definition asdict_response (r : AgentResponse) : value :=
  VDict {[ lit "agent_name" := VStr (agent_name r);
           lit "timestamp" := VStr (timestamp r);
           lit "analysis_type" := VStr (analysis_type r);
           lit "findings" := VDict (findings r);
           lit "recommendations" := VList (map VStr (recommendations r));
           lit "risk_level" := VStr (risk_level r);
           lit "confidence_score" := VFloat (confidence_score r) ]}.

Definition asdict (result : ContractAnalysisResult) : value :=
  VDict {[ lit "contract_info" := VDict (contract_info result);
           lit "agent_responses" :=
             VList (map asdict_response (agent_responses result));
           lit "consolidated_findings" := VDict (consolidated_findings result);
           lit "priority_recommendations" :=
             VList (map VStr (priority_recommendations result));
           lit "risk_assessment" := VDict (risk_assessment result);
           lit "traceability_map" := VDict (VStr <$> traceability_map result);
           lit "analysis_timestamp" := VStr (analysis_timestamp result) ]}.

(** The characters of [result.contract_info['name']]; the name of a result
    is a [str], and a value of another type is taken not to be iterable. *)
Definition chars_of (v : value) : M World str :=
  match v with
  | VStr s => ret s
  | _ => raise TypeError_not_iterable
  end.

Definition save_analysis_results (result : ContractAnalysisResult)
    (output_dir : str) : M World (option str) :=
  try_except
    ((* Create output directory *)
     extern (Path_mkdir output_dir) ;;;
     (* Generate filename *)
     now <- datetime_now ;;
     let timestamp := strftime_Ymd_HMS now in
     name <- getitem (contract_info result) (lit "name") ;;
     name_chars <- chars_of name ;;
     let contract_name_clean := contract_name_clean name_chars in
     let filename := analysis_filename contract_name_clean timestamp in
     let filepath := Path_joined output_dir filename in
     (* Convert to JSON-serializable format *)
     let result_dict := asdict result in
     (* Save to file *)
     extern (open_w filepath) ;;;
     extern (json_dump result_dict filepath) ;;;
     print (lit "💾 Analysis results saved to: " ++ filepath) ;;;
     ret (Some filepath))
    (fun e =>
     print (lit "❌ Error saving analysis results: " ++ exc_str e) ;;;
     ret None).

(* ===================================================================== *)
(** ** Construction of the system                                         *)
(* ===================================================================== *)

(** The keyword arguments of an [Agent(...)] call. *)
Record AgentConfig := {
  cfg_name : str;
  cfg_role : str;
  cfg_model : str;                    (* MistralChat(id=...) *)
  cfg_instructions : list str;
  cfg_markdown : bool
}.

Inductive Tool : Type :=
  | ReasoningTools (add_instructions : bool)
  | FileTools.

(** The keyword arguments of the [Team(...)] call. *)
Record TeamConfig := {
  team_name : str;
  team_mode : str;
  team_model : str;
  team_members : list Agent;
  team_tools : list Tool;
  team_instructions : list str;
  team_markdown : bool
}.

(** The constructors of the agent library, each with the construction of
    the model (and tools) it is given; they may raise. *)
Variable Agent_new : AgentConfig -> M Env Agent.
Variable Team_new : TeamConfig -> M Env Agent.

Definition structure_agent_config : AgentConfig :=
  {| cfg_name := lit "ContractStructureAgent";
     cfg_role := lit "Contract Structure & Organization Specialist";
     cfg_model := lit "open-mistral-nemo";
     cfg_instructions :=
     [ lit "You are a CONTRACT STRUCTURE SPECIALIST. Your role is to analyze and organize contract components systematically.";
       lit "";
       lit "🎯 PRIMARY OBJECTIVES:";
       lit "• Identify and categorize all contract parties and their defined roles";
       lit "• Map out main terms, conditions, and mutual obligations";
       lit "• Analyze payment structures, amounts, schedules, and conditions";
       lit "• Extract deliverables, milestones, and performance metrics";
       lit "• Examine duration, renewal options, and termination conditions";
       lit "• Assess risk allocation and responsibility distribution";
       lit "";
       lit "📋 STRUCTURAL ANALYSIS CHECKLIST:";
       lit "• Contract header and identification information";
       lit "• Party definitions and legal entity details";
       lit "• Scope of work and service descriptions";
       lit "• Timeline and milestone definitions";
       lit "• Financial terms and payment mechanics";
       lit "• Performance standards and acceptance criteria";
       lit "• Change management and modification procedures";
       lit "• Termination triggers and procedures";
       lit "";
       lit "🚨 RED FLAGS TO IDENTIFY:";
       lit "• Missing essential contract elements";
       lit "• Ambiguous or contradictory terms";
       lit "• Unbalanced obligation distribution";
       lit "• Vague performance standards";
       lit "• Incomplete termination procedures";
       lit "• Missing change management processes";
       lit "";
       lit "📊 OUTPUT REQUIREMENTS:";
       lit "• Provide structured analysis using clear categories";
       lit "• Rate completeness on scale 1-10 with justification";
       lit "• List specific gaps or improvements needed";
       lit "• Assign risk level: LOW/MEDIUM/HIGH for structural issues";
       lit "• Include confidence score (0.0-1.0) for your analysis";
       lit "";
       lit "Format your response as structured JSON with these sections:";
       lit "- contract_parties";
       lit "- main_terms";
       lit "- payment_structure";
       lit "- deliverables_timeline";
       lit "- termination_conditions";
       lit "- structural_gaps";
       lit "- completeness_score";
       lit "- risk_level";
       lit "- recommendations" ];
     cfg_markdown := true |}.

Definition _create_structure_agent : M Env Agent := Agent_new structure_agent_config.

Definition legal_agent_config : AgentConfig :=
  {| cfg_name := lit "LegalFrameworkAgent";
     cfg_role := lit "Legal Compliance & Risk Assessment Specialist";
     cfg_model := lit "open-mistral-nemo";
     cfg_instructions :=
     [ lit "You are a LEGAL COMPLIANCE SPECIALIST. Your role is to assess legal validity, compliance, and risk exposure.";
       lit "";
       lit "⚖️ LEGAL ANALYSIS FOCUS:";
       lit "• Enforceability of contract terms under applicable law";
       lit "• Jurisdiction and governing law appropriateness";
       lit "• Liability allocation and limitation clause effectiveness";
       lit "• Indemnification provisions and mutual protection";
       lit "• Intellectual property rights and ownership clarity";
       lit "• Confidentiality and non-disclosure adequacy";
       lit "• Dispute resolution mechanisms and enforceability";
       lit "• Regulatory compliance requirements";
       lit "";
       lit "🔍 COMPLIANCE CHECKLIST:";
       lit "• Contract formation requirements (offer, acceptance, consideration)";
       lit "• Capacity and authority of signing parties";
       lit "• Statutory and regulatory compliance";
       lit "• Industry-specific legal requirements";
       lit "• Consumer protection law considerations";
       lit "• Employment law implications (if applicable)";
       lit "• Data protection and privacy compliance";
       lit "";
       lit "⚠️ LEGAL RISK ASSESSMENT:";
       lit "• HIGH RISK: Unenforceable terms, regulatory violations, excessive liability";
       lit "• MEDIUM RISK: Ambiguous clauses, jurisdiction issues, incomplete protection";
       lit "• LOW RISK: Minor technical issues, formatting problems";
       lit "";
       lit "🛡️ RISK MITIGATION PRIORITIES:";
       lit "• Identify unenforceable or problematic clauses";
       lit "• Recommend liability protection improvements";
       lit "• Suggest regulatory compliance enhancements";
       lit "• Propose dispute resolution optimization";
       lit "";
       lit "📋 OUTPUT REQUIREMENTS:";
       lit "• Categorize findings by legal area (contract law, regulatory, IP, etc.)";
       lit "• Assign risk levels with specific justification";
       lit "• Provide actionable legal recommendations";
       lit "• Include confidence score for legal assessment";
       lit "";
       lit "Format response as structured JSON with sections:";
       lit "- enforceability_assessment";
       lit "- compliance_review";
       lit "- liability_analysis";
       lit "- risk_factors";
       lit "- legal_gaps";
       lit "- regulatory_issues";
       lit "- risk_level";
       lit "- recommendations" ];
     cfg_markdown := true |}.

Definition _create_legal_agent : M Env Agent := Agent_new legal_agent_config.

Definition negotiation_agent_config : AgentConfig :=
  {| cfg_name := lit "NegotiationAgent";
     cfg_role := lit "Strategic Negotiation & Business Optimization Specialist";
     cfg_model := lit "open-mistral-nemo";
     cfg_instructions :=
     [ lit "You are a STRATEGIC NEGOTIATION SPECIALIST. Your role is to optimize contract terms through strategic negotiation analysis.";
       lit "";
       lit "🎯 NEGOTIATION STRATEGY FOCUS:";
       lit "• Power dynamics and leverage analysis between parties";
       lit "• Win-win opportunity identification and value creation";
       lit "• Alternative terms and creative solution development";
       lit "• Market benchmarking and industry standard comparison";
       lit "• Risk-reward balance optimization";
       lit "• Relationship preservation considerations";
       lit "";
       lit "💪 LEVERAGE ASSESSMENT:";
       lit "• Client leverage factors (market position, alternatives, urgency)";
       lit "• Counterparty leverage factors (competition, capacity, dependency)";
       lit "• Mutual dependencies and shared interests";
       lit "• External market factors and timing considerations";
       lit "";
       lit "🎲 NEGOTIATION TACTICS:";
       lit "• Priority terms ranking (must-have vs. nice-to-have)";
       lit "• Trade-off opportunities and package deals";
       lit "• Timing and sequencing strategies";
       lit "• Fallback positions and walkaway points";
       lit "• Escalation and decision-making processes";
       lit "";
       lit "📈 VALUE OPTIMIZATION:";
       lit "• Cost reduction opportunities";
       lit "• Revenue enhancement possibilities";
       lit "• Risk mitigation through better terms";
       lit "• Operational efficiency improvements";
       lit "• Long-term relationship value";
       lit "";
       lit "🗣️ COMMUNICATION STRATEGY:";
       lit "• Key messaging and positioning";
       lit "• Stakeholder alignment requirements";
       lit "• Documentation and follow-up needs";
       lit "• Relationship management considerations";
       lit "";
       lit "📊 OUTPUT REQUIREMENTS:";
       lit "• Prioritize negotiation points by business impact";
       lit "• Provide specific tactical recommendations";
       lit "• Include alternative term suggestions";
       lit "• Assess negotiation difficulty and timeline";
       lit "";
       lit "Format response as structured JSON with sections:";
       lit "- leverage_analysis";
       lit "- priority_terms";
       lit "- negotiation_tactics";
       lit "- alternative_terms";
       lit "- value_optimization";
       lit "- implementation_strategy";
       lit "- risk_level";
       lit "- recommendations" ];
     cfg_markdown := true |}.

Definition _create_negotiation_agent : M Env Agent := Agent_new negotiation_agent_config.

Definition manager_agent_config (members : list Agent) : TeamConfig :=
  {| team_name := lit "ContractAnalysisManager";
     team_mode := lit "coordinate";
     team_model := lit "open-mistral-nemo";
     team_members := members;
     team_tools := [ReasoningTools true; FileTools];
     team_instructions :=
     [ lit "You are the Contract Analysis Team Manager. Execute analysis in this sequence:";
       lit "";
       lit "ANALYSIS WORKFLOW:";
       lit "1. STRUCTURE ANALYSIS: Have the Structure Agent analyze the contract organization and completeness";
       lit "2. LEGAL REVIEW: Have the Legal Agent assess compliance and legal risks";
       lit "3. NEGOTIATION STRATEGY: Have the Negotiation Agent develop strategic recommendations";
       lit "4. SYNTHESIS: Integrate all findings into a comprehensive report";
       lit "";
       lit "FINAL OUTPUT REQUIREMENTS:";
       lit "• Executive Summary (2-3 key points per category)";
       lit "• Structural Assessment with gaps identified";
       lit "• Legal Risk Analysis with prioritized recommendations";
       lit "• Negotiation Strategy with specific tactics";
       lit "• Implementation Roadmap with next steps";
       lit "";
       lit "QUALITY STANDARDS:";
       lit "• Be specific and actionable";
       lit "• Prioritize by business impact";
       lit "• Provide clear rationale for recommendations";
       lit "• Focus on practical implementation";
       lit "";
       lit "IMPORTANT: Complete the analysis efficiently without task loops or redundant coordination." ];
     team_markdown := true |}.

Definition _create_manager_agent (self : ContractAnalysisSystem) : M Env Agent :=
  structure <- getitem (agents self) (lit "structure") ;;
  legal <- getitem (agents self) (lit "legal") ;;
  negotiation <- getitem (agents self) (lit "negotiation") ;;
  Team_new (manager_agent_config [structure; legal; negotiation]).

(** [self.agents[key] = agent]. *)
Definition set_agent (self : ContractAnalysisSystem) (key : str) (agent : Agent)
  : ContractAnalysisSystem :=
  {| agents := <[key := agent]> (agents self);
     manager_agent := manager_agent self |}.

(** [_initialize_agents]: the four constructions in order; a failure of any
    of them is raised again with a prefixed message. *)
Definition _initialize_agents (self : ContractAnalysisSystem)
  : M Env ContractAnalysisSystem :=
  try_except
    (structure <- _create_structure_agent ;;
     let self := set_agent self (lit "structure") structure in
     legal <- _create_legal_agent ;;
     let self := set_agent self (lit "legal") legal in
     negotiation <- _create_negotiation_agent ;;
     let self := set_agent self (lit "negotiation") negotiation in
     manager <- _create_manager_agent self ;;
     ret {| agents := agents self; manager_agent := Some manager |})
    (fun e =>
     raise {| exc_str := lit "Failed to initialize agents: " ++ exc_str e |}).

(** [ContractAnalysisSystem()]: [__init__] starts from no agent and no
    manager (the history list it also creates is never read). *)
Definition ContractAnalysisSystem_init : M Env ContractAnalysisSystem :=
  _initialize_agents {| agents := ∅; manager_agent := None |}.

(* ===================================================================== *)
(** ** More string operations                                             *)
(* ===================================================================== *)

(** [s.startswith(p)]. *)
Fixpoint startswith (p s : str) : bool :=
  match p, s with
  | [], _ => true
  | _ :: _, [] => false
  | a :: p', b :: s' => (a =? b)%N && startswith p' s'
  end.

(** [needle in hay]. *)
Fixpoint contains (needle hay : str) : bool :=
  startswith needle hay ||
  match hay with
  | [] => false
  | _ :: hay' => contains needle hay'
  end.

(** Left-to-right replacement of the non-overlapping occurrences of a
    non-empty [old]; [skip] characters of an occurrence already replaced
    are still to be passed over. *)
Fixpoint replace_from (old new : str) (skip : nat) (s : str) : str :=
  match s with
  | [] => []
  | c :: s' =>
      match skip with
      | S k => replace_from old new k s'
      | O =>
          if startswith old s
          then new ++ replace_from old new (length old - 1) s'
          else c :: replace_from old new 0 s'
      end
  end.

(** [s.replace(old, new)]. *)
Definition replace (old new s : str) : str :=
  match old with
  | [] => new ++ flat_map (fun c => c :: new) s
  | _ :: _ => replace_from old new 0 s
  end.

(** [f"{z:,}"] for an integer. *)
Definition format_int_commas (z : Z) : str :=
  if (z <? 0)%Z then lit "-" ++ format_thousands (Z.to_nat (- z))
  else format_thousands (Z.to_nat z).

(** [f"{v:,}"] for a float or another object (Python built-in). *)
Variable format_commas_other : value -> Result str.

(** [f"{v:,}"]. *)
Definition format_commas (v : value) : Result str :=
  match v with
  | VInt z => Returns (format_int_commas z)
  | VStr _ => Raises {| exc_str := lit "Cannot specify ',' with 's'." |}
  | VNone =>
      Raises {| exc_str := lit "unsupported format string passed to NoneType.__format__" |}
  | VList _ =>
      Raises {| exc_str := lit "unsupported format string passed to list.__format__" |}
  | VDict _ =>
      Raises {| exc_str := lit "unsupported format string passed to dict.__format__" |}
  | VFloat _ | VObj _ => format_commas_other v
  end.

(** [f"{x:.1%}"] (Python built-in). *)
Variable format_percent1 : float -> str.

(** [float(n)] for a list length. *)
Definition float_of_nat (n : nat) : float :=
  PrimFloat.of_uint63 (Uint63.of_Z (Z.of_nat n)).

(* ===================================================================== *)
(** ** Views of a result: console and web interface                       *)
(* ===================================================================== *)

(** ["error" in resp.findings]. *)
Definition has_error (resp : AgentResponse) : bool :=
  match findings resp !! lit "error" with
  | Some _ => true
  | None => false
  end.

(** [sum(1 for resp in result.agent_responses if "error" not in resp.findings)]. *)
Definition success_count (result : ContractAnalysisResult) : nat :=
  length (filter (fun resp => has_error resp = false) (agent_responses result)).

(** Console display, the status of one line of the traceability map:
    [any(... for resp in result.agent_responses if resp.agent_name == agent_name)]. *)
Definition console_status (result : ContractAnalysisResult) (agent_name_ : str) : str :=
  if existsb (fun resp => has_error resp || contains (lit "FAILED") agent_name_)
       (filter (fun resp => agent_name resp = agent_name_) (agent_responses result))
  then lit "❌ FAILED"
  else lit "✅ COMPLETED".

(** Web interface, the status of one row of the traceability table:
    [any("FAILED" in agent_name for _ in [agent_name])]. *)
Definition web_status (agent_name_ : str) : str :=
  if existsb (fun _ => contains (lit "FAILED") agent_name_) [agent_name_]
  then lit "❌ Failed"
  else lit "✅ Completed".

(** Calls of the Streamlit library, in the order they are made.  Apart
    from [st.metric], whose arguments the library validates, they are
    taken never to raise. *)
Inductive Widget : Type :=
  | st_metric (label value : str) (delta_color : option str)
  | st_spinner (text : str)
  | st_success (body : str)
  | st_error (body : str).

Definition show (widget : Widget) : M (list Widget) unit :=
  modify (fun page => page ++ [widget]).

(** What [st.metric(label, value, delta_color=...)] raises when the
    installed Streamlit does not accept its arguments, if anything (the
    releases differ on the delta colours they accept). *)
Variable st_metric_raises : str -> str -> option str -> option Exc.

(** A call of [st.metric]. *)
Definition metric (label value : str) (delta_color : option str)
  : M (list Widget) unit :=
  match st_metric_raises label value delta_color with
  | Some e => raise e
  | None => show (st_metric label value delta_color)
  end.

(** [sum(confidences) / len(confidences) if confidences else 0]. *)
Definition avg_confidence (confidences : list float) : float :=
  match confidences with
  | [] => 0
  | _ :: _ =>
      PrimFloat.div (fold_left PrimFloat.add confidences 0%float)
        (float_of_nat (length confidences))
  end.

(** The overall risk of the metrics row. *)
Definition overall_risk (result : ContractAnalysisResult) : str :=
  let risk_levels :=
    filter (fun r => r <> lit "PENDING") (risk_level <$> agent_responses result) in
  match risk_levels with
  | _ :: _ =>
      let high_risk := length (filter (fun r => r = lit "HIGH") risk_levels) in
      if Nat.ltb 0 high_risk then lit "HIGH"
      else if bool_decide (lit "MEDIUM" ∈ risk_levels) then lit "MEDIUM"
      else lit "LOW"
  | [] => lit "UNKNOWN"
  end.

Definition risk_color (overall_risk : str) : str :=
  if bool_decide (overall_risk = lit "HIGH") then lit "red"
  else if bool_decide (overall_risk = lit "MEDIUM") then lit "orange"
  else lit "normal".

Definition create_analysis_metrics (result : ContractAnalysisResult)
  : M (list Widget) unit :=
  length_ <- getitem (contract_info result) (lit "length") ;;
  length_text <- (fun page => (format_commas length_, page)) ;;
  metric (lit "📄 Contract Length") (length_text ++ lit " chars") None ;;;
  let total_agents := length (agent_responses result) in
  let success_agents := success_count result in
  metric (lit "🤖 Agent Success")
    (str_of_nat success_agents ++ lit "/" ++ str_of_nat total_agents) None ;;;
  let confidences := confidence_score <$> agent_responses result in
  let avg_confidence := avg_confidence confidences in
  metric (lit "🎯 Avg Confidence") (format_percent1 avg_confidence) None ;;;
  let overall_risk := overall_risk result in
  let risk_color := risk_color overall_risk in
  metric (lit "⚠️ Risk Level") overall_risk (Some risk_color).

(** The four metrics, once the length of the contract has been formatted. *)
Definition metrics_row (length_text : str) (result : ContractAnalysisResult)
  : list Widget :=
  [ st_metric (lit "📄 Contract Length") (length_text ++ lit " chars") None;
    st_metric (lit "🤖 Agent Success")
      (str_of_nat (success_count result) ++ lit "/"
       ++ str_of_nat (length (agent_responses result))) None;
    st_metric (lit "🎯 Avg Confidence")
      (format_percent1 (avg_confidence (confidence_score <$> agent_responses result)))
      None;
    st_metric (lit "⚠️ Risk Level") (overall_risk result)
      (Some (risk_color (overall_risk result))) ].

(** The web interface's indicator of one response's risk level. *)
Definition risk_indicator (response : AgentResponse) : str :=
  if bool_decide (risk_level response = lit "HIGH") then lit "🔴"
  else if bool_decide (risk_level response = lit "MEDIUM") then lit "🟡"
  else lit "🟢".

(** One row of the history table, without its date: index, name, length,
    success ratio and status. *)
Definition history_agents_success (result : ContractAnalysisResult) : str :=
  str_of_nat (success_count result) ++ lit "/"
  ++ str_of_nat (length (agent_responses result)).

Definition history_status (result : ContractAnalysisResult) : str :=
  if Nat.eqb (success_count result) (length (agent_responses result))
  then lit "✅ Complete"
  else lit "⚠️ Partial".

(** The radar chart of the risk visualisation. *)
Record Scatterpolar := {
  trace_r : list value;
  trace_theta : list str;
  trace_fill : str;
  trace_name : str;
  trace_line_color : str;
  trace_opacity : option float
}.

Record Figure := {
  fig_traces : list Scatterpolar;
  fig_radialaxis_range : list Z;
  fig_radialaxis_ticktext : list str;
  fig_radialaxis_tickvals : list Z;
  fig_showlegend : bool;
  fig_title : str
}.

Definition risk_mapping : gmap str Z :=
  {[ lit "LOW" := 1%Z; lit "MEDIUM" := 2%Z; lit "HIGH" := 3%Z;
     lit "PENDING" := 0%Z; lit "UNKNOWN" := 0%Z ]}.

Definition create_risk_visualization (result : ContractAnalysisResult) : Figure :=
  let agents :=
    (fun response => replace (lit "Agent") [] (agent_name response))
      <$> agent_responses result in
  let risk_scores :=
    (fun response => default 0%Z (risk_mapping !! risk_level response))
      <$> agent_responses result in
  let confidences :=
    (fun response => PrimFloat.mul (confidence_score response) 100)
      <$> agent_responses result in
  {| fig_traces :=
       [ {| trace_r := VInt <$> risk_scores; trace_theta := agents;
            trace_fill := lit "toself"; trace_name := lit "Risk Level";
            trace_line_color := lit "red"; trace_opacity := None |};
         {| trace_r := (fun c => VFloat (PrimFloat.div c 33.33)) <$> confidences;
            trace_theta := agents;
            trace_fill := lit "toself"; trace_name := lit "Confidence";
            trace_line_color := lit "blue"; trace_opacity := Some 0.6%float |} ];
     fig_radialaxis_range := [0; 3]%Z;
     fig_radialaxis_ticktext := [lit "None"; lit "Low"; lit "Medium"; lit "High"];
     fig_radialaxis_tickvals := [0; 1; 2; 3]%Z;
     fig_showlegend := true;
     fig_title := lit "Risk Assessment & Confidence by Agent" |}.

(* ===================================================================== *)
(** ** The web application: session, initialisation, upload               *)
(* ===================================================================== *)

(** [st.session_state]. *)
Record SessionState := {
  state_system : option ContractAnalysisSystem;
  state_analysis_history : list ContractAnalysisResult;
  state_current_analysis : option ContractAnalysisResult
}.

(** The world, the widgets shown so far and the session. *)
Record App := {
  app_world : World;
  app_page : list Widget;
  app_session : SessionState
}.

Definition in_world {A} (m : M World A) : M App A :=
  zoom app_world
    (fun w a => {| app_world := w; app_page := app_page a;
                   app_session := app_session a |}) m.

Definition on_page {A} (m : M (list Widget) A) : M App A :=
  zoom app_page
    (fun p a => {| app_world := app_world a; app_page := p;
                   app_session := app_session a |}) m.

(** [st.session_state.system = system]. *)
Definition set_state_system (system : ContractAnalysisSystem) : M App unit :=
  modify (fun a =>
    {| app_world := app_world a; app_page := app_page a;
       app_session :=
         {| state_system := Some system;
            state_analysis_history := state_analysis_history (app_session a);
            state_current_analysis := state_current_analysis (app_session a) |} |}).

Definition initialize_system : M App bool :=
  try_except
    (on_page (show (st_spinner (lit "🚀 Initializing Multi-Agent System..."))) ;;;
     system <- in_world (extern ContractAnalysisSystem_init) ;;
     set_state_system system ;;;
     on_page (show (st_success (lit "✅ All agents initialized successfully!"))) ;;;
     ret true)
    (fun e =>
     on_page (show (st_error (lit "❌ Failed to initialize system: " ++ exc_str e))) ;;;
     on_page (show (st_error (lit "Please check your API keys and dependencies"))) ;;;
     ret false).

(** An uploaded file: its name and [getvalue()]. *)
Record UploadedFile := {
  upload_name : str;
  upload_value : list N
}.

(** [open(p, "wb")], [f.write(data)] and the closing of the file. *)
Variable write_binary : str -> list N -> M Env unit.

(** [Path(p).unlink(missing_ok=True)]. *)
Variable Path_unlink : str -> M Env unit.

Definition extract_pdf_text (uploaded_file : UploadedFile) : M App (option str) :=
  try_except
    ((* Save uploaded file temporarily *)
     let temp_path := lit "temp_" ++ upload_name uploaded_file in
     in_world (extern (write_binary temp_path (upload_value uploaded_file))) ;;;
     (* Extract text *)
     text <- in_world (extract_text_from_pdf temp_path) ;;
     (* Clean up *)
     in_world (extern (Path_unlink temp_path)) ;;;
     ret text)
    (fun e =>
     on_page (show (st_error (lit "Error extracting PDF text: " ++ exc_str e))) ;;;
     ret None).

(* ===================================================================== *)
(** ** Outcomes, counted                                                  *)
(* ===================================================================== *)

(** The world [w] with the environment [e]. *)
Definition with_env (w : World) (e : Env) : World :=
  {| env := e; ticks := ticks w; stdout := stdout w |}.

Definition raised {A} (o : Result A) : bool :=
  match o with
  | Raises _ => true
  | Returns _ => false
  end.

(** The warnings the page loop prints: one for each page whose extraction
    raised, in page order. *)
Fixpoint page_warnings (page_num : nat) (outcomes : list (Result str)) : list str :=
  match outcomes with
  | [] => []
  | Raises page_error :: rest =>
      (lit "⚠️  Warning: Could not extract text from page "
       ++ str_of_nat (page_num + 1) ++ lit ": " ++ exc_str page_error)
      :: page_warnings (S page_num) rest
  | Returns _ :: rest => page_warnings (S page_num) rest
  end.

(* ===================================================================== *)
(** ** The external calls of a run                                        *)
(* ===================================================================== *)

(** The record a specialist step leaves, by the outcome of its call. *)
Definition structure_entry (o : Result Response) : datetime -> AgentResponse :=
  match o with
  | Returns r => structure_success r
  | Raises e => structure_failure e
  end.

Definition legal_entry (o : Result Response) : datetime -> AgentResponse :=
  match o with
  | Returns r => legal_success r
  | Raises e => legal_failure e
  end.

Definition negotiation_entry (o : Result Response) : datetime -> AgentResponse :=
  match o with
  | Returns r => negotiation_success r
  | Raises e => negotiation_failure e
  end.

(** Outcomes of the four agent calls of one run, and the environment the
    last of them leaves. *)
Record Calls := {
  structure_outcome : Result Response;
  legal_outcome : Result Response;
  negotiation_outcome : Result Response;
  manager_outcome : Result Response;
  env_after : Env
}.

(** The calls that [analyze_contract system contract_text contract_name]
    makes when started in world [w], each in the environment left by the
    one before, whatever the outcomes. *)
Definition run_calls (system : ContractAnalysisSystem)
    (contract_text contract_name : str) (w : World) : Calls :=
  let t := ticks w in
  let '(o1, e1) :=
    agents_run system (lit "structure") (structure_prompt contract_text) (env w) in
  let '(o2, e2) :=
    agents_run system (lit "legal") (legal_prompt contract_text) e1 in
  let '(o3, e3) :=
    agents_run system (lit "negotiation") (negotiation_prompt contract_text) e2 in
  let '(o4, e4) :=
    manager_run system
      (consolidation_prompt contract_name
         (structure_entry o1 (clock (1 + t)))
         (legal_entry o2 (clock (2 + t)))
         (negotiation_entry o3 (clock (3 + t)))) e3 in
  {| structure_outcome := o1; legal_outcome := o2; negotiation_outcome := o3;
     manager_outcome := o4; env_after := e4 |}.

(** How many of the three specialist calls of a run returned. *)
Definition specialist_successes (c : Calls) : nat :=
  length (filter (fun o => raised o = false)
            [structure_outcome c; legal_outcome c; negotiation_outcome c]).

Definition entries (c : Calls) (t : nat) : list AgentResponse :=
  [ structure_entry (structure_outcome c) (clock (1 + t));
    legal_entry (legal_outcome c) (clock (2 + t));
    negotiation_entry (negotiation_outcome c) (clock (3 + t)) ].

Definition final_result (contract_name contract_text : str) (c : Calls) (t : nat)
  : ContractAnalysisResult :=
  match manager_outcome c with
  | Returns r =>
      manager_success contract_name contract_text (entries c t) r
        (clock (4 + t)) (clock (5 + t))
  | Raises e =>
      manager_failure contract_name contract_text (entries c t) e
        (clock (4 + t)) (clock (5 + t))
  end.

(* ===================================================================== *)
(** ** The pages of a PDF, as the specification words them                *)
(* ===================================================================== *)

(** Outcomes of [page.extract_text()] on the pages in order, each in the
    environment left by the one before. *)
Fixpoint page_outcomes (pages : list Page) (e : Env) : list (Result str) * Env :=
  match pages with
  | [] => ([], e)
  | page :: rest =>
      let '(o, e') := extract_text page e in
      let '(os, e'') := page_outcomes rest e' in
      (o :: os, e'')
  end.

(** The text a page yielded, when its extraction did not raise and the
    text is non-empty after stripping white space. *)
Definition yields_text (o : Result str) : option str :=
  match o with
  | Returns page_text => if truthy (strip page_text) then Some page_text else None
  | Raises _ => None
  end.

(** The pages that yielded text, with their index (from [page_num]). *)
Fixpoint text_pages (page_num : nat) (outcomes : list (Result str))
  : list (nat * str) :=
  match outcomes with
  | [] => []
  | o :: rest =>
      match yields_text o with
      | Some page_text => (page_num, page_text) :: text_pages (S page_num) rest
      | None => text_pages (S page_num) rest
      end
  end.

(** One marker line and one text block for each of them. *)
Definition page_blocks (tp : list (nat * str)) : list str :=
  flat_map (fun '(page_num, page_text) => [page_marker page_num; page_text]) tp.

(* ===================================================================== *)
(** ** Properties of the orchestrator                                     *)
(* ===================================================================== *)

Arguments lit : simpl never.
Arguments times : simpl never.
Arguments str_of_nat : simpl never.
Arguments format_thousands : simpl never.
Arguments isoformat : simpl never.
Arguments strftime_Ymd_HMS : simpl never.
Arguments strftime_Y_m_d_H_M_S : simpl never.
Arguments structure_prompt : simpl never.
Arguments legal_prompt : simpl never.
Arguments negotiation_prompt : simpl never.
Arguments consolidation_prompt : simpl never.
Arguments asdict : simpl never.
Arguments contract_name_clean : simpl never.
Arguments analysis_filename : simpl never.

(** Unfolding of the effect combinators, to run a body by hand. *)
Ltac eff_unfold :=
  unfold with_local, io, extern, zoom, bind, ret, raise, try_except,
    gets, modify, append, print, datetime_now.

(** One run of [analyze_contract], call by call: it returns, with the
    record of the branch each call's outcome selects. *)
Lemma analyze_contract_run system contract_text contract_name w :
  let c := run_calls system contract_text contract_name w in
  exists out,
    analyze_contract system contract_text contract_name w
    = (Returns (final_result contract_name contract_text c (ticks w)),
       {| env := env_after c; ticks := 6 + ticks w; stdout := out |}).
Proof.
  unfold analyze_contract, run_calls, final_result, entries,
    structure_step, legal_step, negotiation_step, manager_step.
  eff_unfold. cbn.
  destruct (agents_run system (lit "structure") _ (env w)) as [o1 e1].
  destruct o1 as [r1|x1]; cbn;
  destruct (agents_run system (lit "legal") _ e1) as [o2 e2];
  destruct o2 as [r2|x2]; cbn;
  destruct (agents_run system (lit "negotiation") _ e2) as [o3 e3];
  destruct o3 as [r3|x3]; cbn;
  match goal with |- context [manager_run ?s ?p ?e] =>
    destruct (manager_run s p e) as [o4 e4] end;
  destruct o4 as [r4|x4]; cbn; eexists; reflexivity.
Qed.

(** C1: for every contract text and name and whatever the outcomes of the
    four calls, [analyze_contract] returns a result whose [agent_responses]
    are exactly three, in the order structure, legal, negotiation, and
    whose [traceability_map] has exactly four entries. *)
Theorem analyze_contract_three_responses_four_roles
    system contract_text contract_name w :
  exists res w',
    analyze_contract system contract_text contract_name w = (Returns res, w') /\
    length (agent_responses res) = 3 /\
    agent_name <$> agent_responses res
      = [lit "ContractStructureAgent"; lit "LegalFrameworkAgent";
         lit "NegotiationAgent"] /\
    analysis_type <$> agent_responses res
      = [lit "structural_analysis"; lit "legal_compliance";
         lit "negotiation_strategy"] /\
    size (traceability_map res) = 4.
Proof.
  destruct (analyze_contract_run system contract_text contract_name w)
    as [out Hrun].
  eexists _, _. split; [exact Hrun|].
  unfold final_result, entries.
  destruct (run_calls system contract_text contract_name w)
    as [[r1|x1] [r2|x2] [r3|x3] [r4|x4] e4];
    cbn [manager_outcome structure_outcome legal_outcome negotiation_outcome
         structure_entry legal_entry negotiation_entry
         manager_success manager_failure agent_responses traceability_map];
    (repeat (split; [reflexivity|]); vm_compute; reflexivity).
Qed.

(** C2: when the call of a specialist step raises, the response recorded
    for that step has risk level HIGH (structure, legal) or MEDIUM
    (negotiation), and its confidence score (0.3, 0.2, 0.4) is strictly
    below the score the step records on success (0.8, 0.85, 0.75). *)
Theorem failed_step_risk_and_confidence
    system contract_text contract_name w :
  let c := run_calls system contract_text contract_name w in
  exists res w',
    analyze_contract system contract_text contract_name w = (Returns res, w') /\
    (forall e, structure_outcome c = Raises e ->
       exists a, agent_responses res !! 0 = Some a /\
         risk_level a = lit "HIGH" /\ confidence_score a = 0.3%float /\
         forall r now,
           confidence_score (structure_success r now) = 0.8%float /\
           PrimFloat.ltb (confidence_score a)
             (confidence_score (structure_success r now)) = true) /\
    (forall e, legal_outcome c = Raises e ->
       exists a, agent_responses res !! 1 = Some a /\
         risk_level a = lit "HIGH" /\ confidence_score a = 0.2%float /\
         forall r now,
           confidence_score (legal_success r now) = 0.85%float /\
           PrimFloat.ltb (confidence_score a)
             (confidence_score (legal_success r now)) = true) /\
    (forall e, negotiation_outcome c = Raises e ->
       exists a, agent_responses res !! 2 = Some a /\
         risk_level a = lit "MEDIUM" /\ confidence_score a = 0.4%float /\
         forall r now,
           confidence_score (negotiation_success r now) = 0.75%float /\
           PrimFloat.ltb (confidence_score a)
             (confidence_score (negotiation_success r now)) = true).
Proof.
  intros c.
  destruct (analyze_contract_run system contract_text contract_name w)
    as [out Hrun].
  eexists _, _. split; [exact Hrun|]. fold c.
  assert (Hresp : agent_responses (final_result contract_name contract_text c (ticks w))
                  = entries c (ticks w)).
  { unfold final_result. by destruct (manager_outcome c). }
  rewrite Hresp. unfold entries.
  split; [|split]; intros e He; rewrite He; eexists;
    (split; [reflexivity|]); (split; [reflexivity|]); (split; [reflexivity|]);
    intros r now; split; reflexivity.
Qed.

(** C3: when the call of a specialist step returns, the response recorded
    for that step keeps the raw model output (the [content] attribute of
    the reply when it has one, else [str] of the reply) under the findings
    key [raw_response] and under no other key, has the fixed confidence
    score of the step (0.8, 0.85, 0.75) and the risk level PENDING,
    whatever the reply contains. *)
Theorem successful_step_raw_response
    system contract_text contract_name w :
  let c := run_calls system contract_text contract_name w in
  let raw_output (r : Response) : value :=
    match content r with
    | Some v => v
    | None => VStr (response_str r)
    end in
  exists res w',
    analyze_contract system contract_text contract_name w = (Returns res, w') /\
    (forall r, structure_outcome c = Returns r ->
       exists a, agent_responses res !! 0 = Some a /\
         findings a !! lit "raw_response" = Some (raw_output r) /\
         findings a = {[ lit "raw_response" := raw_output r ]} /\
         confidence_score a = 0.8%float /\ risk_level a = lit "PENDING") /\
    (forall r, legal_outcome c = Returns r ->
       exists a, agent_responses res !! 1 = Some a /\
         findings a !! lit "raw_response" = Some (raw_output r) /\
         findings a = {[ lit "raw_response" := raw_output r ]} /\
         confidence_score a = 0.85%float /\ risk_level a = lit "PENDING") /\
    (forall r, negotiation_outcome c = Returns r ->
       exists a, agent_responses res !! 2 = Some a /\
         findings a !! lit "raw_response" = Some (raw_output r) /\
         findings a = {[ lit "raw_response" := raw_output r ]} /\
         confidence_score a = 0.75%float /\ risk_level a = lit "PENDING").
Proof.
  intros c raw_output.
  destruct (analyze_contract_run system contract_text contract_name w)
    as [out Hrun].
  eexists _, _. split; [exact Hrun|]. fold c.
  assert (Hresp : agent_responses (final_result contract_name contract_text c (ticks w))
                  = entries c (ticks w)).
  { unfold final_result. by destruct (manager_outcome c). }
  rewrite Hresp. unfold entries.
  split; [|split]; intros r Hr; rewrite Hr; eexists;
    (split; [reflexivity|]); (split; [apply lookup_singleton_eq|]);
    (split; [reflexivity|]); split; reflexivity.
Qed.

(** C4, amended: when the manager call raises, [analyze_contract] still
    returns a result: its consolidated findings hold an [error] entry and
    no synthesis, its risk assessment records the overall risk as the
    string "UNKNOWN - Analysis incomplete", the manager entry of its
    traceability map is the manager's name followed by " (FAILED)", and
    the three specialist entries are those of any run whose manager call
    returns. *)
Theorem manager_failure_partial_result
    system contract_text contract_name w e :
  manager_outcome (run_calls system contract_text contract_name w) = Raises e ->
  exists res w',
    analyze_contract system contract_text contract_name w = (Returns res, w') /\
    consolidated_findings res
      = {[ lit "error" := VStr (lit "Manager consolidation failed: " ++ exc_str e) ]} /\
    consolidated_findings res !! lit "manager_synthesis" = None /\
    risk_assessment res !! lit "overall_risk"
      = Some (VStr (lit "UNKNOWN" ++ lit " - Analysis incomplete")) /\
    traceability_map res !! lit "manager_agent"
      = Some (lit "ContractAnalysisManager" ++ lit " (FAILED)") /\
    forall system2 contract_text2 contract_name2 w2 r2 res2 w2',
      manager_outcome (run_calls system2 contract_text2 contract_name2 w2)
        = Returns r2 ->
      analyze_contract system2 contract_text2 contract_name2 w2
        = (Returns res2, w2') ->
      traceability_map res2 !! lit "manager_agent"
        = Some (lit "ContractAnalysisManager") /\
      forall role,
        role ∈ [lit "structure_agent"; lit "legal_agent"; lit "negotiation_agent"] ->
        is_Some (traceability_map res !! role) /\
        traceability_map res !! role = traceability_map res2 !! role.
Proof.
  intros He.
  destruct (analyze_contract_run system contract_text contract_name w)
    as [out Hrun].
  eexists _, _. split; [exact Hrun|].
  unfold final_result. rewrite He.
  cbn [manager_failure consolidated_findings risk_assessment traceability_map].
  split; [reflexivity|].
  split; [apply lookup_singleton_ne; by vm_compute|].
  split; [vm_compute; reflexivity|].
  split; [vm_compute; reflexivity|].
  intros system2 contract_text2 contract_name2 w2 r2 res2 w2' Hr2 Hrun2.
  destruct (analyze_contract_run system2 contract_text2 contract_name2 w2)
    as [out2 Hrun2'].
  rewrite Hrun2' in Hrun2. injection Hrun2 as <- _.
  unfold final_result. rewrite Hr2.
  cbn [manager_success traceability_map].
  split; [vm_compute; reflexivity|].
  intros role Hrole. rewrite !elem_of_cons in Hrole.
  destruct Hrole as [-> | [-> | [-> | Hnil]]];
    [| | | by apply elem_of_nil in Hnil];
    (split; [eexists|]; vm_compute; reflexivity).
Qed.

(** C5: [analyze_contract] never raises.  Whatever the outcomes, the four
    calls are all made, in order (the environment it leaves is the one
    after the manager call), a raising call is turned into the degraded
    record of its step (the error message as findings, one canned
    recommendation), and the result is that of the manager branch. *)
Theorem step_failures_never_stop_the_run
    system contract_text contract_name w :
  let c := run_calls system contract_text contract_name w in
  exists res out,
    analyze_contract system contract_text contract_name w
      = (Returns res,
         {| env := env_after c; ticks := 6 + ticks w; stdout := out |}) /\
    agent_responses res
      = [ structure_entry (structure_outcome c) (clock (1 + ticks w));
          legal_entry (legal_outcome c) (clock (2 + ticks w));
          negotiation_entry (negotiation_outcome c) (clock (3 + ticks w)) ] /\
    (forall e now,
       findings (structure_entry (Raises e) now)
         = {[ lit "error" := VStr (exc_str e) ]} /\
       recommendations (structure_entry (Raises e) now)
         = [lit "Manual structure review required"]) /\
    (forall e now,
       findings (legal_entry (Raises e) now)
         = {[ lit "error" := VStr (exc_str e) ]} /\
       recommendations (legal_entry (Raises e) now)
         = [lit "Legal review by qualified attorney required"]) /\
    (forall e now,
       findings (negotiation_entry (Raises e) now)
         = {[ lit "error" := VStr (exc_str e) ]} /\
       recommendations (negotiation_entry (Raises e) now)
         = [lit "Manual negotiation strategy development required"]) /\
    (forall r, manager_outcome c = Returns r ->
       consolidated_findings res
         = {[ lit "manager_synthesis" := content_or_str r ]}) /\
    (forall e, manager_outcome c = Raises e ->
       consolidated_findings res
         = {[ lit "error" := VStr (lit "Manager consolidation failed: " ++ exc_str e) ]}).
Proof.
  intros c.
  destruct (analyze_contract_run system contract_text contract_name w)
    as [out Hrun].
  eexists _, out. split; [exact Hrun|]. fold c.
  unfold final_result, entries.
  split; [by destruct (manager_outcome c)|].
  do 3 (split; [intros e now; split; reflexivity|]).
  split; intros x Hx; by rewrite Hx.
Qed.

(** C10: in the result of every run, whether the manager call returned or
    raised and whether each step succeeded or failed, the traceability
    entry of each specialist role is the [agent_name] of the response at
    the position of that role (structure 0, legal 1, negotiation 2). *)
Theorem traceability_matches_agent_names
    system contract_text contract_name w :
  exists res w',
    analyze_contract system contract_text contract_name w = (Returns res, w') /\
    Forall (fun '(role, i) =>
              is_Some (traceability_map res !! role) /\
              traceability_map res !! role
                = agent_name <$> agent_responses res !! i)
      [ (lit "structure_agent", 0); (lit "legal_agent", 1);
        (lit "negotiation_agent", 2) ].
Proof.
  destruct (analyze_contract_run system contract_text contract_name w)
    as [out Hrun].
  eexists _, _. split; [exact Hrun|].
  unfold final_result, entries.
  destruct (run_calls system contract_text contract_name w)
    as [[r1|x1] [r2|x2] [r3|x3] [r4|x4] e4];
    cbn [manager_outcome structure_outcome legal_outcome negotiation_outcome
         structure_entry legal_entry negotiation_entry
         manager_success manager_failure agent_responses traceability_map];
    repeat (apply Forall_cons; split;
            [split; [eexists|]; vm_compute; reflexivity|]);
    apply Forall_nil_2.
Qed.

(* ===================================================================== *)
(** ** Properties of the PDF extractor                                    *)
(* ===================================================================== *)

Lemma text_pages_bounds outcomes : forall k i t,
  (i, t) ∈ text_pages k outcomes -> k <= i.
Proof.
  induction outcomes as [|o rest IH]; intros k i t Hin; cbn in Hin.
  - by apply elem_of_nil in Hin.
  - destruct (yields_text o).
    + apply elem_of_cons in Hin as [Heq|Hin].
      * inversion Heq; lia.
      * apply IH in Hin; lia.
    + apply IH in Hin; lia.
Qed.

(** [text_pages] holds exactly the pages that yielded text. *)
Lemma elem_of_text_pages outcomes : forall k i t,
  (i, t) ∈ text_pages k outcomes <->
  exists j o, i = k + j /\ outcomes !! j = Some o /\ yields_text o = Some t.
Proof.
  induction outcomes as [|o rest IH]; intros k i t; cbn.
  - split; [intros Hin; by apply elem_of_nil in Hin|].
    intros (j & o & _ & Hj & _). by rewrite lookup_nil in Hj.
  - assert (Hrest : (i, t) ∈ text_pages (S k) rest <->
              exists j o', i = k + S j /\ rest !! j = Some o' /\ yields_text o' = Some t).
    { rewrite IH. split; intros (j & o' & Hi & Hj & Ho); exists j, o';
        (split; [lia | done]). }
    assert (Hsplit : (exists j o', i = k + j /\ (o :: rest) !! j = Some o'
                        /\ yields_text o' = Some t) <->
              (i = k /\ yields_text o = Some t) \/
              (exists j o', i = k + S j /\ rest !! j = Some o' /\ yields_text o' = Some t)).
    { split.
      - intros (j & o' & Hi & Hj & Ho). destruct j as [|j]; cbn in Hj.
        + left. inversion Hj; subst. split; [lia | done].
        + right. by exists j, o'.
      - intros [[Hi Ho] | (j & o' & Hi & Hj & Ho)].
        + exists 0, o. split; [lia | done].
        + by exists (S j), o'. }
    rewrite Hsplit, <- Hrest. destruct (yields_text o) as [t0|] eqn:Ho.
    + rewrite elem_of_cons. split.
      * intros [Heq | Hin]; [left | by right]. by inversion Heq.
      * intros [[-> Heq] | Hin]; [left | by right]. by inversion Heq.
    + split; [by right|]. by intros [[_ ?] | ?].
Qed.

(** ... in strictly ascending page order, so each of them once. *)
Lemma text_pages_ascending outcomes : forall k,
  StronglySorted lt (text_pages k outcomes).*1.
Proof.
  induction outcomes as [|o rest IH]; intros k; cbn; [constructor|].
  destruct (yields_text o); [|apply IH]. cbn. constructor; [apply IH|].
  apply Forall_forall. intros i Hi.
  apply list_elem_of_fmap in Hi as ([i' t] & -> & Hin).
  apply text_pages_bounds in Hin. cbn. lia.
Qed.

(** The page loop never raises; it leaves in [text_content] the blocks of
    the pages that yielded text, and the environment after every page has
    been tried. *)
Lemma extract_pages_run pages : forall page_num f,
  exists out,
    extract_pages page_num pages f
    = (Returns tt,
       {| world :=
            {| env := snd (page_outcomes pages (env (world f)));
               ticks := ticks (world f);
               stdout := stdout (world f) ++ out |};
          local :=
            local f ++ page_blocks
              (text_pages page_num (fst (page_outcomes pages (env (world f))))) |}).
Proof.
  induction pages as [|page rest IH]; intros page_num [[e t out0] tc].
  - exists []. cbn. unfold ret. by rewrite !app_nil_r.
  - cbn [extract_pages page_outcomes]. eff_unfold. cbn.
    destruct (extract_text page e) as [[page_text|err] e'] eqn:Hpage; cbn.
    + destruct (truthy (strip page_text)) eqn:Htext; cbn.
      * edestruct (IH (S page_num)) as [out ->]. cbn.
        destruct (page_outcomes rest e') as [os e'']. cbn. rewrite Htext. cbn.
        exists out. by rewrite <- !app_assoc.
      * edestruct (IH (S page_num)) as [out ->]. cbn.
        destruct (page_outcomes rest e') as [os e'']. cbn. rewrite Htext.
        by exists out.
    + edestruct (IH (S page_num)) as [out ->]. cbn.
      destruct (page_outcomes rest e') as [os e'']. cbn.
      eexists (_ :: out). by rewrite <- app_assoc.
Qed.

Arguments extract_pages : simpl never.

Lemma page_blocks_nil tp : page_blocks tp = [] -> tp = [].
Proof. by destruct tp as [|[i t] tp]. Qed.

(** The extractor on a file that exists, is readable and whose pages can
    be read. *)
Lemma extract_text_from_pdf_readable pdf_path w pages e1 :
  os_path_exists pdf_path (env w) = true ->
  os_access_R_OK pdf_path (env w) = true ->
  PdfReader_pages pdf_path (env w) = (Returns pages, e1) ->
  exists out,
    extract_text_from_pdf pdf_path w
    = (Returns
         (let text_content :=
            page_blocks (text_pages 0 (fst (page_outcomes pages e1))) in
          match text_content with
          | [] => None
          | _ :: _ => Some (join newline text_content)
          end),
       {| env := snd (page_outcomes pages e1); ticks := ticks w; stdout := out |}).
Proof.
  intros Hexists Hread Hpages.
  unfold extract_text_from_pdf. eff_unfold. cbn.
  rewrite Hexists. cbn. rewrite Hread. cbn. rewrite Hpages. cbn.
  cbn zeta. destruct pages as [|page rest]; [cbn; by eexists|].
  cbn [length Nat.eqb].
  edestruct (extract_pages_run (page :: rest) 0) as [out ->]. cbn [local world env ticks stdout app].
  destruct (page_blocks _); by eexists.
Qed.

(** C6: for a PDF whose pages can be read, [extract_text_from_pdf]
    returns, joined by the line feed (code point 10), the blocks
    "--- Page N ---" / page text, one block for each page whose extracted text is non-empty after stripping
    white space and for no other page, in ascending page order; a page
    whose extraction raises is skipped and the pages after it are still
    tried. *)
Theorem extract_text_from_pdf_page_blocks pdf_path w pages e1 :
  os_path_exists pdf_path (env w) = true ->
  os_access_R_OK pdf_path (env w) = true ->
  PdfReader_pages pdf_path (env w) = (Returns pages, e1) ->
  let outcomes := fst (page_outcomes pages e1) in
  let tp := text_pages 0 outcomes in
  tp <> [] ->
  (exists w',
     extract_text_from_pdf pdf_path w
       = (Returns (Some (join [10%N] (page_blocks tp))), w') /\
     env w' = snd (page_outcomes pages e1)) /\
  page_blocks tp
    = flat_map (fun '(i, page_text) =>
                  [lit "--- Page " ++ str_of_nat (i + 1) ++ lit " ---"; page_text])
        tp /\
  (forall i page_text,
     (i, page_text) ∈ tp <->
     outcomes !! i = Some (Returns page_text) /\
     truthy (strip page_text) = true) /\
  StronglySorted lt tp.*1 /\
  (forall i e, outcomes !! i = Some (Raises e) -> i ∉ tp.*1) /\
  length outcomes = length pages.
Proof.
  intros Hexists Hread Hpages outcomes tp Htp.
  assert (Hmem : forall i page_text,
            (i, page_text) ∈ tp <->
            outcomes !! i = Some (Returns page_text) /\
            truthy (strip page_text) = true).
  { intros i t. unfold tp. rewrite elem_of_text_pages. split.
    - intros (j & o & -> & Hj & Ho). cbn. rewrite Hj.
      destruct o as [t'|x]; cbn in Ho; [|done].
      destruct (truthy (strip t')) eqn:Ht; [|done]. by inversion Ho; subst.
    - intros [Hi Ht]. exists i, (Returns t). cbn. by rewrite Ht. }
  split; [|split; [reflexivity|split; [exact Hmem|split; [apply text_pages_ascending|split]]]].
  - destruct (extract_text_from_pdf_readable pdf_path w pages e1 Hexists Hread Hpages)
      as [out Hrun].
    rewrite Hrun. cbn zeta. fold outcomes. fold tp.
    destruct (page_blocks tp) eqn:Hblocks; [by apply page_blocks_nil in Hblocks|].
    eexists. split; reflexivity.
  - intros i e Hi Hin. apply list_elem_of_fmap in Hin as ([i' t] & -> & Hin).
    apply Hmem in Hin as [Hin _]. cbn in Hi. rewrite Hi in Hin. discriminate.
  - unfold outcomes. clear. revert e1.
    induction pages as [|page rest IH]; intros e1; [done|]. cbn.
    destruct (extract_text page e1) as [o e']. specialize (IH e').
    destruct (page_outcomes rest e') as [os e'']. cbn in *. by rewrite IH.
Qed.

(** C7: [extract_text_from_pdf] never raises, and it returns [None] when
    the file does not exist, when it is not readable, when the PDF has no
    page, when no page yields non-empty text, and when the file cannot be
    opened or parsed. *)
Theorem extract_text_from_pdf_absent_never_raises pdf_path w :
  (exists r w', extract_text_from_pdf pdf_path w = (Returns r, w')) /\
  (os_path_exists pdf_path (env w) = false ->
     fst (extract_text_from_pdf pdf_path w) = Returns None) /\
  (os_access_R_OK pdf_path (env w) = false ->
     fst (extract_text_from_pdf pdf_path w) = Returns None) /\
  (forall e1, PdfReader_pages pdf_path (env w) = (Returns [], e1) ->
     fst (extract_text_from_pdf pdf_path w) = Returns None) /\
  (forall pages e1,
     PdfReader_pages pdf_path (env w) = (Returns pages, e1) ->
     Forall (fun o => yields_text o = None) (fst (page_outcomes pages e1)) ->
     fst (extract_text_from_pdf pdf_path w) = Returns None) /\
  (forall e e1, PdfReader_pages pdf_path (env w) = (Raises e, e1) ->
     fst (extract_text_from_pdf pdf_path w) = Returns None).
Proof.
  assert (Hno : forall outcomes k,
            Forall (fun o => yields_text o = None) outcomes ->
            text_pages k outcomes = []).
  { induction outcomes as [|o rest IH]; intros k Hall; [done|].
    apply Forall_cons in Hall as [Ho Hrest]. cbn. rewrite Ho. by apply IH. }
  assert (Hcases :
    (os_path_exists pdf_path (env w) = false \/
     os_access_R_OK pdf_path (env w) = false \/
     exists e e1, PdfReader_pages pdf_path (env w) = (Raises e, e1)) ->
    exists w', extract_text_from_pdf pdf_path w = (Returns None, w')).
  { intros Hcase. unfold extract_text_from_pdf. eff_unfold. cbn.
    destruct (os_path_exists pdf_path (env w)) eqn:Hexists; cbn; [|by eexists].
    destruct (os_access_R_OK pdf_path (env w)) eqn:Hread; cbn; [|by eexists].
    destruct Hcase as [?|[?|(e & e1 & Hraise)]]; [done..|].
    rewrite Hraise. cbn. by eexists. }
  assert (Hpages : forall pages e1,
    PdfReader_pages pdf_path (env w) = (Returns pages, e1) ->
    text_pages 0 (fst (page_outcomes pages e1)) = [] ->
    exists w', extract_text_from_pdf pdf_path w = (Returns None, w')).
  { intros pages e1 Hp Hnone.
    destruct (os_path_exists pdf_path (env w)) eqn:Hexists;
      [|apply Hcases; by left].
    destruct (os_access_R_OK pdf_path (env w)) eqn:Hread;
      [|apply Hcases; right; by left].
    destruct (extract_text_from_pdf_readable pdf_path w pages e1 Hexists Hread Hp)
      as [out Hrun].
    rewrite Hrun, Hnone. by eexists. }
  split; [|split; [|split; [|split; [|split]]]].
  - destruct (os_path_exists pdf_path (env w)) eqn:Hexists;
      [|destruct Hcases as [w' ->]; [by left|by eexists _, _]].
    destruct (os_access_R_OK pdf_path (env w)) eqn:Hread;
      [|destruct Hcases as [w' ->]; [right; by left|by eexists _, _]].
    destruct (PdfReader_pages pdf_path (env w)) as [[pages|e] e1] eqn:Hp.
    + destruct (extract_text_from_pdf_readable pdf_path w pages e1 Hexists Hread Hp)
        as [out ->].
      by eexists _, _.
    + destruct Hcases as [w' ->]; [right; right; by exists e, e1|by eexists _, _].
  - intros H. destruct Hcases as [w' ->]; [by left|done].
  - intros H. destruct Hcases as [w' ->]; [right; by left|done].
  - intros e1 Hp. by destruct (Hpages [] e1 Hp) as [w' ->].
  - intros pages e1 Hp Hall. destruct (Hpages pages e1 Hp) as [w' ->]; [|done].
    by apply Hno.
  - intros e e1 Hp. destruct Hcases as [w' ->]; [right; right; by exists e, e1|done].
Qed.

(* ===================================================================== *)
(** ** Properties of the persistence                                      *)
(* ===================================================================== *)

Lemma lstrip_spec s :
  exists pre, s = pre ++ lstrip s /\ Forall (fun c => isspace c = true) pre /\
    forall c rest, lstrip s = c :: rest -> isspace c = false.
Proof.
  induction s as [|c s (pre & Hs & Hpre & Hhead)]; cbn.
  - exists []. split; [done|]. split; [constructor | done].
  - destruct (isspace c) eqn:Hc.
    + exists (c :: pre). split; [cbn; by rewrite <- Hs|]. split; [by constructor | done].
    + exists []. split; [done|]. split; [constructor|].
      intros c' rest Heq. by inversion Heq; subst.
Qed.

(** What [strip] does: it removes a white-space prefix and a white-space
    suffix, and what is left neither starts nor ends with white space. *)
Lemma strip_spec s :
  exists pre post,
    s = pre ++ strip s ++ post /\
    Forall (fun c => isspace c = true) pre /\
    Forall (fun c => isspace c = true) post /\
    (forall c, head (strip s) = Some c -> isspace c = false) /\
    (forall c, last (strip s) = Some c -> isspace c = false).
Proof.
  unfold strip, rstrip.
  destruct (lstrip_spec s) as (pre & Hs & Hpre & Hhead).
  destruct (lstrip_spec (reverse (lstrip s))) as (tsop & Hr & Hpost & Hlast).
  assert (Hl : lstrip s = reverse (lstrip (reverse (lstrip s))) ++ reverse tsop).
  { by rewrite <- reverse_app, <- Hr, reverse_involutive. }
  exists pre, (reverse tsop).
  split; [by rewrite <- Hl|].
  split; [done|]. split; [by apply Forall_reverse|]. split.
  - intros c Hc.
    destruct (reverse (lstrip (reverse (lstrip s)))) as [|c' rest]; [done|].
    cbn in Hc. inversion Hc; subst. by apply (Hhead c (rest ++ reverse tsop)).
  - intros c Hc. rewrite last_reverse in Hc.
    destruct (lstrip (reverse (lstrip s))) as [|c' rest] eqn:Heq; [done|].
    cbn in Hc. inversion Hc; subst. by apply (Hlast c rest).
Qed.

Lemma digit_is_ascii_digit n : is_ascii_digit (digit n) = true.
Proof.
  unfold is_ascii_digit, digit.
  assert (Hlt : (n mod 10 < 10)%N) by (apply N.mod_upper_bound; discriminate).
  generalize dependent (n mod 10)%N. intros m Hlt.
  apply andb_true_intro. split; apply N.leb_le; lia.
Qed.

(** The timestamp of a filename: eight digits, an underscore, six digits. *)
Lemma strftime_Ymd_HMS_shape d :
  exists date time,
    strftime_Ymd_HMS d = date ++ [95%N] ++ time /\
    length date = 8 /\ length time = 6 /\
    Forall (fun c => is_ascii_digit c = true) (date ++ time).
Proof.
  exists (pad4 (year d) ++ pad2 (month d) ++ pad2 (day d)),
         (pad2 (hour d) ++ pad2 (minute d) ++ pad2 (second d)).
  split; [by rewrite <- !app_assoc|]. do 2 (split; [reflexivity|]).
  unfold pad4, pad2. cbn. repeat constructor; apply digit_is_ascii_digit.
Qed.

(** The run of [save_analysis_results] once the directory exists and the
    name of the result is the string [name]: the outcome is decided by the
    opening of the file and by the dump. *)
Lemma save_analysis_results_run result output_dir w name e1 :
  Path_mkdir output_dir (env w) = (Returns tt, e1) ->
  contract_info result !! lit "name" = Some (VStr name) ->
  let filepath :=
    Path_joined output_dir
      (analysis_filename (contract_name_clean name)
         (strftime_Ymd_HMS (clock (ticks w)))) in
  save_analysis_results result output_dir w
  = match open_w filepath e1 with
    | (Raises e, e2) =>
        (Returns None,
         {| env := e2; ticks := S (ticks w);
            stdout := stdout w ++ [lit "❌ Error saving analysis results: " ++ exc_str e] |})
    | (Returns _, e2) =>
        match json_dump (asdict result) filepath e2 with
        | (Raises e, e3) =>
            (Returns None,
             {| env := e3; ticks := S (ticks w);
                stdout := stdout w ++ [lit "❌ Error saving analysis results: " ++ exc_str e] |})
        | (Returns _, e3) =>
            (Returns (Some filepath),
             {| env := e3; ticks := S (ticks w);
                stdout := stdout w ++ [lit "💾 Analysis results saved to: " ++ filepath] |})
        end
    end.
Proof.
  intros Hmkdir Hname filepath.
  unfold save_analysis_results, getitem, chars_of. eff_unfold. cbn.
  rewrite Hmkdir. cbn. rewrite Hname. cbn. fold filepath.
  destruct (open_w filepath e1) as [[[]|e] e2]; cbn; [|reflexivity].
  destruct (json_dump (asdict result) filepath e2) as [[[]|e] e3]; reflexivity.
Qed.


(** C9: [save_analysis_results] never raises.  When the creation of the
    directory, the reading of the name, the opening of the file or the
    dump raises, the exception is caught, its message is printed and
    [None] is returned; when every step returns, the path of the written
    file is returned. *)
Theorem save_analysis_results_never_raises result output_dir w :
  let error e := lit "❌ Error saving analysis results: " ++ exc_str e in
  let filepath name :=
    Path_joined output_dir
      (analysis_filename (contract_name_clean name)
         (strftime_Ymd_HMS (clock (ticks w)))) in
  (exists r w', save_analysis_results result output_dir w = (Returns r, w')) /\
  (forall e e1,
     Path_mkdir output_dir (env w) = (Raises e, e1) ->
     save_analysis_results result output_dir w
       = (Returns None,
          {| env := e1; ticks := ticks w; stdout := stdout w ++ [error e] |})) /\
  (forall e1,
     Path_mkdir output_dir (env w) = (Returns tt, e1) ->
     contract_info result !! lit "name" = None ->
     save_analysis_results result output_dir w
       = (Returns None,
          {| env := e1; ticks := S (ticks w);
             stdout := stdout w ++ [error (KeyError (lit "name"))] |})) /\
  (forall name e1 e e2,
     Path_mkdir output_dir (env w) = (Returns tt, e1) ->
     contract_info result !! lit "name" = Some (VStr name) ->
     open_w (filepath name) e1 = (Raises e, e2) ->
     save_analysis_results result output_dir w
       = (Returns None,
          {| env := e2; ticks := S (ticks w); stdout := stdout w ++ [error e] |})) /\
  (forall name e1 e2 e e3,
     Path_mkdir output_dir (env w) = (Returns tt, e1) ->
     contract_info result !! lit "name" = Some (VStr name) ->
     open_w (filepath name) e1 = (Returns tt, e2) ->
     json_dump (asdict result) (filepath name) e2 = (Raises e, e3) ->
     save_analysis_results result output_dir w
       = (Returns None,
          {| env := e3; ticks := S (ticks w); stdout := stdout w ++ [error e] |})) /\
  (forall name e1 e2 e3,
     Path_mkdir output_dir (env w) = (Returns tt, e1) ->
     contract_info result !! lit "name" = Some (VStr name) ->
     open_w (filepath name) e1 = (Returns tt, e2) ->
     json_dump (asdict result) (filepath name) e2 = (Returns tt, e3) ->
     save_analysis_results result output_dir w
       = (Returns (Some (filepath name)),
          {| env := e3; ticks := S (ticks w);
             stdout := stdout w
               ++ [lit "💾 Analysis results saved to: " ++ filepath name] |})).
Proof.
  intros error filepath.
  split; [|split; [|split; [|split; [|split]]]].
  - destruct (Path_mkdir output_dir (env w)) as [[[]|e] e1] eqn:Hmkdir.
    + destruct (contract_info result !! lit "name") as [[name| | | | | |]|] eqn:Hname;
        [ rewrite (save_analysis_results_run result output_dir w name e1 Hmkdir Hname);
          cbn zeta; destruct (open_w _ e1) as [[[]|e] e2]; [|by eexists _, _];
          destruct (json_dump _ _ e2) as [[[]|e] e3]; by eexists _, _
        | unfold save_analysis_results, getitem, chars_of; eff_unfold; cbn;
          rewrite Hmkdir; cbn; rewrite Hname; cbn; by eexists _, _ .. ].
    + unfold save_analysis_results. eff_unfold. cbn. rewrite Hmkdir. cbn.
      by eexists _, _.
  - intros e e1 Hmkdir. unfold save_analysis_results. eff_unfold. cbn.
    by rewrite Hmkdir.
  - intros e1 Hmkdir Hname. unfold save_analysis_results, getitem. eff_unfold. cbn.
    rewrite Hmkdir. cbn. by rewrite Hname.
  - intros name e1 e e2 Hmkdir Hname Hopen.
    rewrite (save_analysis_results_run result output_dir w name e1 Hmkdir Hname).
    cbn zeta. fold (filepath name). by rewrite Hopen.
  - intros name e1 e2 e e3 Hmkdir Hname Hopen Hdump.
    rewrite (save_analysis_results_run result output_dir w name e1 Hmkdir Hname).
    cbn zeta. fold (filepath name). by rewrite Hopen, Hdump.
  - intros name e1 e2 e3 Hmkdir Hname Hopen Hdump.
    rewrite (save_analysis_results_run result output_dir w name e1 Hmkdir Hname).
    cbn zeta. fold (filepath name). by rewrite Hopen, Hdump.
Qed.

(* ===================================================================== *)
(** ** Properties of the views of a run                                   *)
(* ===================================================================== *)

(** Case analysis on the four outcomes of a run, for a goal of the form
    [exists res w', analyze_contract ... = (Returns res, w') /\ _]. *)
Ltac run_cases system contract_text contract_name w :=
  destruct (analyze_contract_run system contract_text contract_name w)
    as [out Hrun];
  eexists _, _; split; [exact Hrun|];
  unfold final_result, entries, specialist_successes;
  destruct (run_calls system contract_text contract_name w)
    as [[r1|x1] [r2|x2] [r3|x3] [r4|x4] e4];
  cbn [manager_outcome structure_outcome legal_outcome negotiation_outcome
       structure_entry legal_entry negotiation_entry raised].

(** X1: the history page counts a run as complete exactly when its three
    specialist calls returned, whether or not the manager call raised. *)
Theorem history_status_ignores_the_manager
    system contract_text contract_name w :
  let c := run_calls system contract_text contract_name w in
  exists res w',
    analyze_contract system contract_text contract_name w = (Returns res, w') /\
    success_count res = specialist_successes c /\
    history_agents_success res
      = str_of_nat (specialist_successes c) ++ lit "/3" /\
    history_status res
      = (if raised (structure_outcome c) || raised (legal_outcome c)
            || raised (negotiation_outcome c)
         then lit "⚠️ Partial" else lit "✅ Complete").
Proof.
  intros c. subst c.
  run_cases system contract_text contract_name w;
    (split; [vm_compute; reflexivity|]); split; vm_compute; reflexivity.
Qed.

(** X2: the overall risk the metrics row shows for a run is HIGH when the
    structure or the legal call raised, else MEDIUM when the negotiation
    call raised, else UNKNOWN; it is never LOW, and it does not depend on
    the manager call. *)
Theorem overall_risk_of_a_run system contract_text contract_name w :
  let c := run_calls system contract_text contract_name w in
  exists res w',
    analyze_contract system contract_text contract_name w = (Returns res, w') /\
    overall_risk res
      = (if raised (structure_outcome c) || raised (legal_outcome c)
         then lit "HIGH"
         else if raised (negotiation_outcome c) then lit "MEDIUM"
         else lit "UNKNOWN") /\
    overall_risk res <> lit "LOW" /\
    risk_color (overall_risk res)
      = (if raised (structure_outcome c) || raised (legal_outcome c)
         then lit "red"
         else if raised (negotiation_outcome c) then lit "orange"
         else lit "normal").
Proof.
  intros c. subst c.
  run_cases system contract_text contract_name w;
    (split; [vm_compute; reflexivity|]);
    (split; [vm_compute; discriminate|]); vm_compute; reflexivity.
Qed.

(** X3: in the agent details of the web interface a step whose call
    returned, and whose risk was therefore never assessed (PENDING), is
    shown with the green indicator; a failed structure or legal step is
    shown red and a failed negotiation step yellow. *)
Theorem risk_indicators_of_a_run system contract_text contract_name w :
  let c := run_calls system contract_text contract_name w in
  exists res w',
    analyze_contract system contract_text contract_name w = (Returns res, w') /\
    risk_indicator <$> agent_responses res
      = [ if raised (structure_outcome c) then lit "🔴" else lit "🟢";
          if raised (legal_outcome c) then lit "🔴" else lit "🟢";
          if raised (negotiation_outcome c) then lit "🟡" else lit "🟢" ].
Proof.
  intros c. subst c.
  run_cases system contract_text contract_name w; vm_compute; reflexivity.
Qed.

(** X4: the console display marks a specialist FAILED exactly when its
    call raised, but marks the manager COMPLETED in every run, also when
    the manager call raised: no response carries the manager's name. *)
Theorem console_status_of_a_run system contract_text contract_name w :
  let c := run_calls system contract_text contract_name w in
  exists res w',
    analyze_contract system contract_text contract_name w = (Returns res, w') /\
    console_status res <$> traceability_map res !! lit "manager_agent"
      = Some (lit "✅ COMPLETED") /\
    console_status res <$> traceability_map res !! lit "structure_agent"
      = Some (if raised (structure_outcome c)
              then lit "❌ FAILED" else lit "✅ COMPLETED") /\
    console_status res <$> traceability_map res !! lit "legal_agent"
      = Some (if raised (legal_outcome c)
              then lit "❌ FAILED" else lit "✅ COMPLETED") /\
    console_status res <$> traceability_map res !! lit "negotiation_agent"
      = Some (if raised (negotiation_outcome c)
              then lit "❌ FAILED" else lit "✅ COMPLETED").
Proof.
  intros c. subst c.
  run_cases system contract_text contract_name w;
    repeat (split; [vm_compute; reflexivity|]); vm_compute; reflexivity.
Qed.

(** X5: the traceability table of the web interface marks the manager
    Failed exactly when the manager call raised, and marks every
    specialist Completed, also when its call raised. *)
Theorem web_status_of_a_run system contract_text contract_name w :
  let c := run_calls system contract_text contract_name w in
  exists res w',
    analyze_contract system contract_text contract_name w = (Returns res, w') /\
    web_status <$> traceability_map res !! lit "manager_agent"
      = Some (if raised (manager_outcome c)
              then lit "❌ Failed" else lit "✅ Completed") /\
    web_status <$> traceability_map res !! lit "structure_agent"
      = Some (lit "✅ Completed") /\
    web_status <$> traceability_map res !! lit "legal_agent"
      = Some (lit "✅ Completed") /\
    web_status <$> traceability_map res !! lit "negotiation_agent"
      = Some (lit "✅ Completed").
Proof.
  intros c. subst c.
  run_cases system contract_text contract_name w;
    repeat (split; [vm_compute; reflexivity|]); vm_compute; reflexivity.
Qed.

Lemma filter_eq_nil_iff {A} (P : A -> Prop) `{forall x, Decision (P x)} (l : list A) :
  filter P l = [] <-> Forall (fun x => ~ P x) l.
Proof.
  rewrite Forall_forall. split.
  - intros Hnil x Hx HP.
    assert (Hin : x ∈ filter P l) by (by apply list_elem_of_filter).
    rewrite Hnil in Hin. by apply elem_of_nil in Hin.
  - intros Hall. destruct (filter P l) as [|y l'] eqn:Hf; [done|].
    assert (Hin : y ∈ filter P l) by (rewrite Hf; left).
    apply list_elem_of_filter in Hin as [HP Hy]. by destruct (Hall y Hy).
Qed.

Lemma filter_eq_pos_iff {A} `{EqDecision A} (a : A) (l : list A) :
  Nat.ltb 0 (length (filter (fun x => x = a) l)) = true <-> a ∈ l.
Proof.
  rewrite Nat.ltb_lt. split.
  - intros Hlen. destruct (filter (fun x => x = a) l) as [|y l'] eqn:Hf;
      [cbn in Hlen; lia|].
    assert (Hin : y ∈ filter (fun x => x = a) l) by (rewrite Hf; left).
    by apply list_elem_of_filter in Hin as [-> Hy].
  - intros Hin.
    assert (Hf : a ∈ filter (fun x => x = a) l) by (by apply list_elem_of_filter).
    destruct (filter (fun x => x = a) l); [by apply elem_of_nil in Hf|cbn; lia].
Qed.

(** X6: how the metrics row decides the overall risk of any result: HIGH
    as soon as one response is HIGH; otherwise MEDIUM as soon as one is
    MEDIUM; UNKNOWN when every response is PENDING (or there is none); and
    LOW in every other case, so also for a level it does not know. *)
Theorem overall_risk_cases result :
  let levels := risk_level <$> agent_responses result in
  (overall_risk result = lit "HIGH" <-> lit "HIGH" ∈ levels) /\
  (overall_risk result = lit "MEDIUM" <->
     (lit "HIGH" ∉ levels) /\ lit "MEDIUM" ∈ levels) /\
  (overall_risk result = lit "UNKNOWN" <->
     Forall (fun r => r = lit "PENDING") levels) /\
  (overall_risk result = lit "LOW" <->
     (lit "HIGH" ∉ levels) /\ (lit "MEDIUM" ∉ levels) /\
     Exists (fun r => r <> lit "PENDING") levels).
Proof.
  intros levels. unfold overall_risk. fold levels.
  assert (Hhm : lit "HIGH" <> lit "MEDIUM") by (vm_compute; discriminate).
  assert (Hhl : lit "HIGH" <> lit "LOW") by (vm_compute; discriminate).
  assert (Hhu : lit "HIGH" <> lit "UNKNOWN") by (vm_compute; discriminate).
  assert (Hml : lit "MEDIUM" <> lit "LOW") by (vm_compute; discriminate).
  assert (Hmu : lit "MEDIUM" <> lit "UNKNOWN") by (vm_compute; discriminate).
  assert (Hlu : lit "LOW" <> lit "UNKNOWN") by (vm_compute; discriminate).
  assert (Hhp : lit "HIGH" <> lit "PENDING") by (vm_compute; discriminate).
  assert (Hmp : lit "MEDIUM" <> lit "PENDING") by (vm_compute; discriminate).
  set (known := filter (fun r => r <> lit "PENDING") levels).
  assert (Hin : forall x, x <> lit "PENDING" -> x ∈ known <-> x ∈ levels).
  { intros x Hx. unfold known. split.
    - intros Hk. by apply list_elem_of_filter in Hk as [_ Hk].
    - intros Hl. by apply list_elem_of_filter. }
  assert (Hnone : known = [] <-> Forall (fun r => r = lit "PENDING") levels).
  { unfold known. rewrite filter_eq_nil_iff, !Forall_forall.
    split; intros Hall r Hr.
    - destruct (decide (r = lit "PENDING")) as [|Hne]; [done|].
      by destruct (Hall r Hr).
    - intros Hne. by apply Hne, Hall. }
  assert (Hsome : known <> [] <-> Exists (fun r => r <> lit "PENDING") levels).
  { rewrite Exists_exists. split.
    - intros Hne. destruct known as [|y known'] eqn:Hk; [done|].
      assert (Hy : y ∈ known) by (rewrite Hk; left).
      unfold known in Hy. apply list_elem_of_filter in Hy as [Hy1 Hy2].
      by exists y.
    - intros (x & Hx & Hne) Hnil.
      assert (Hxk : x ∈ known) by (by apply Hin).
      rewrite Hnil in Hxk. by apply elem_of_nil in Hxk. }
  pose proof (filter_eq_pos_iff (lit "HIGH") known) as Hhigh.
  rewrite (Hin _ Hhp) in Hhigh.
  destruct known as [|r0 known'] eqn:Hknown.
  - destruct Hnone as [Hnone _]. specialize (Hnone eq_refl).
    assert (Hnot : forall x, x <> lit "PENDING" -> x ∉ levels).
    { intros x Hx Hxin. rewrite Forall_forall in Hnone. by apply Hx, Hnone. }
    repeat split; try done; try (intros; exfalso; by eauto).
    + intros Hh. by destruct (Hnot _ Hhp).
    + intros [_ Hm]. by destruct (Hnot _ Hmp).
    + intros (_ & _ & Hex). apply Hsome in Hex. done.
  - assert (Hne : Exists (fun r => r <> lit "PENDING") levels) by (by apply Hsome).
    assert (Hnall : ~ Forall (fun r => r = lit "PENDING") levels).
    { intros Hall. by apply Hnone in Hall. }
    destruct (Nat.ltb 0 _) eqn:Hcount.
    + destruct Hhigh as [Hhigh _]. specialize (Hhigh eq_refl).
      repeat split; try done; try (intros; exfalso; by eauto).
      * intros [Hno _]. done.
      * intros (Hno & _). done.
    + assert (Hnohigh : lit "HIGH" ∉ levels).
      { intros Hh. apply Hhigh in Hh. congruence. }
      case_bool_decide as Hmed; rewrite (Hin _ Hmp) in Hmed.
      * repeat split; try done; try (intros; exfalso; by eauto).
        intros (_ & Hno & _). done.
      * repeat split; try done; try (intros; exfalso; by eauto).
        intros [_ Hm]. done.
Qed.

Lemma risk_mapping_get k :
  default 0%Z (risk_mapping !! k)
  = if decide (k = lit "LOW") then 1%Z
    else if decide (k = lit "MEDIUM") then 2%Z
    else if decide (k = lit "HIGH") then 3%Z
    else 0%Z.
Proof.
  unfold risk_mapping.
  destruct (decide (k = lit "LOW")) as [->|Hl]; [vm_compute; reflexivity|].
  rewrite lookup_insert_ne by done.
  destruct (decide (k = lit "MEDIUM")) as [->|Hm]; [vm_compute; reflexivity|].
  rewrite lookup_insert_ne by done.
  destruct (decide (k = lit "HIGH")) as [->|Hh]; [vm_compute; reflexivity|].
  rewrite lookup_insert_ne by done.
  destruct (decide (k = lit "PENDING")) as [->|Hp]; [vm_compute; reflexivity|].
  rewrite lookup_insert_ne by done.
  destruct (decide (k = lit "UNKNOWN")) as [->|Hu]; [vm_compute; reflexivity|].
  by rewrite lookup_singleton_ne.
Qed.

(** X7: in the radar chart of any result the two traces have one point per
    response, every risk score is an integer of the declared axis range
    0..3, and a risk level other than LOW, MEDIUM and HIGH (PENDING,
    UNKNOWN, or any other text) is plotted as 0. *)
Theorem risk_scores_within_axis result :
  exists risk confidence,
    fig_traces (create_risk_visualization result) = [risk; confidence] /\
    length (trace_r risk) = length (agent_responses result) /\
    length (trace_theta risk) = length (agent_responses result) /\
    length (trace_r confidence) = length (agent_responses result) /\
    trace_theta confidence = trace_theta risk /\
    Forall (fun v => exists z, v = VInt z /\ (0 <= z <= 3)%Z) (trace_r risk) /\
    forall i response,
      agent_responses result !! i = Some response ->
      risk_level response <> lit "LOW" ->
      risk_level response <> lit "MEDIUM" ->
      risk_level response <> lit "HIGH" ->
      trace_r risk !! i = Some (VInt 0).
Proof.
  eexists _, _. split; [reflexivity|]. cbn [trace_r trace_theta].
  rewrite !length_fmap. do 4 (split; [reflexivity|]). split.
  - rewrite <- list_fmap_compose. apply Forall_fmap, Forall_forall.
    intros response _. cbn. eexists. split; [reflexivity|].
    rewrite risk_mapping_get. repeat case_decide; lia.
  - intros i response Hi Hl Hm Hh.
    rewrite <- list_fmap_compose, list_lookup_fmap, Hi. cbn.
    rewrite risk_mapping_get. by repeat case_decide.
Qed.

(** X8: the radar chart of a run is labelled ContractStructure,
    LegalFramework, Negotiation; a step is plotted at risk 0 when its call
    returned and at 3, 3 and 2 when it raised; every confidence is plotted
    inside the axis range, between 0 and 3. *)
Theorem radar_chart_of_a_run system contract_text contract_name w :
  let c := run_calls system contract_text contract_name w in
  exists res w',
    analyze_contract system contract_text contract_name w = (Returns res, w') /\
    exists risk confidence,
      fig_traces (create_risk_visualization res) = [risk; confidence] /\
      trace_theta risk
        = [lit "ContractStructure"; lit "LegalFramework"; lit "Negotiation"] /\
      trace_theta confidence = trace_theta risk /\
      trace_r risk
        = [ VInt (if raised (structure_outcome c) then 3 else 0);
            VInt (if raised (legal_outcome c) then 3 else 0);
            VInt (if raised (negotiation_outcome c) then 2 else 0) ] /\
      Forall (fun v => exists x, v = VFloat x /\
                PrimFloat.ltb 0 x = true /\ PrimFloat.ltb x 3 = true)
        (trace_r confidence).
Proof.
  intros c. subst c.
  run_cases system contract_text contract_name w;
    eexists _, _; (split; [reflexivity|]); cbn [trace_r trace_theta];
    do 3 (split; [vm_compute; reflexivity|]);
    vm_compute;
    repeat (constructor; [eexists; split; [reflexivity|split; reflexivity]|]);
    constructor.
Qed.

(** X9: the average confidence the metrics row shows for a run lies
    between 0.3 and 0.8, and stays strictly below 0.8 even when the three
    calls returned (binary64 arithmetic); for no response it is 0, not a
    division by zero. *)
Theorem avg_confidence_of_a_run system contract_text contract_name w :
  avg_confidence [] = 0%float /\
  exists res w',
    analyze_contract system contract_text contract_name w = (Returns res, w') /\
    PrimFloat.leb 0.3 (avg_confidence (confidence_score <$> agent_responses res))
      = true /\
    PrimFloat.ltb (avg_confidence (confidence_score <$> agent_responses res)) 0.8
      = true.
Proof.
  split; [reflexivity|].
  run_cases system contract_text contract_name w; split; vm_compute; reflexivity.
Qed.

Lemma format_int_commas_of_nat n :
  format_int_commas (Z.of_nat n) = format_thousands n.
Proof.
  unfold format_int_commas.
  destruct (Z.ltb_spec (Z.of_nat n) 0) as [Hneg|_]; [lia|].
  by rewrite Nat2Z.id.
Qed.

(** The metrics row when [st.metric] accepts the calls that pass no delta
    colour: the call that passes the risk colour decides. *)
Lemma create_analysis_metrics_run result page :
  (forall label value, st_metric_raises label value None = None) ->
  create_analysis_metrics result page
  = match contract_info result !! lit "length" with
    | None => (Raises (KeyError (lit "length")), page)
    | Some v =>
        match format_commas v with
        | Raises e => (Raises e, page)
        | Returns length_text =>
            match st_metric_raises (lit "⚠️ Risk Level") (overall_risk result)
                    (Some (risk_color (overall_risk result))) with
            | Some e => (Raises e, page ++ take 3 (metrics_row length_text result))
            | None => (Returns tt, page ++ metrics_row length_text result)
            end
        end
    end.
Proof.
  intros Hplain.
  unfold create_analysis_metrics, getitem, metric, show, metrics_row.
  eff_unfold.
  destruct (contract_info result !! lit "length") as [v|]; [|reflexivity].
  cbn. destruct (format_commas v) as [length_text|e]; [|reflexivity].
  cbn. rewrite !Hplain. cbn.
  destruct (st_metric_raises _ _ (Some _)) as [e|]; cbn;
    rewrite <- ?app_assoc; reflexivity.
Qed.

(** X10: what the metrics row shows, given that [st.metric] accepts the
    calls that pass no delta colour.  When the result has no length, or a
    length that is a string or None, the function raises before any metric
    is shown.  For an integer length the first three metrics are always
    shown and the fourth call, the only one that passes a delta colour,
    decides: when the installed Streamlit rejects the colour the function
    raises after three metrics, otherwise it shows four. *)
Theorem create_analysis_metrics_outcomes result page :
  (forall label value, st_metric_raises label value None = None) ->
  (contract_info result !! lit "length" = None ->
     create_analysis_metrics result page
       = (Raises (KeyError (lit "length")), page)) /\
  (forall s,
     contract_info result !! lit "length" = Some (VStr s) ->
     raised (fst (create_analysis_metrics result page)) = true /\
     snd (create_analysis_metrics result page) = page) /\
  (contract_info result !! lit "length" = Some VNone ->
     raised (fst (create_analysis_metrics result page)) = true /\
     snd (create_analysis_metrics result page) = page) /\
  (forall z,
     contract_info result !! lit "length" = Some (VInt z) ->
     let row := metrics_row (format_int_commas z) result in
     let risk := overall_risk result in
     (st_metric_raises (lit "⚠️ Risk Level") risk (Some (risk_color risk)) = None ->
        create_analysis_metrics result page = (Returns tt, page ++ row)) /\
     (forall e,
        st_metric_raises (lit "⚠️ Risk Level") risk (Some (risk_color risk)) = Some e ->
        create_analysis_metrics result page = (Raises e, page ++ take 3 row)) /\
     length row = 4).
Proof.
  intros Hplain. rewrite (create_analysis_metrics_run result page Hplain).
  split; [|split; [|split]].
  - intros ->. reflexivity.
  - intros s ->. split; reflexivity.
  - intros ->. split; reflexivity.
  - intros z -> row risk. cbn [format_commas]. fold row. fold risk.
    split; [|split]; [intros -> | intros e -> |]; reflexivity.
Qed.

Lemma contract_info_length_of_a_run contract_name contract_text c t :
  contract_info (final_result contract_name contract_text c t) !! lit "length"
  = Some (VInt (Z.of_nat (length contract_text))).
Proof.
  unfold final_result.
  destruct (manager_outcome c); cbn [manager_success manager_failure contract_info];
    (rewrite lookup_insert_ne by (by vm_compute)); apply lookup_insert_eq.
Qed.

Lemma metrics_inputs_of_a_run contract_name contract_text c t :
  let res := final_result contract_name contract_text c t in
  success_count res = specialist_successes c /\
  length (agent_responses res) = 3 /\
  overall_risk res
    = (if raised (structure_outcome c) || raised (legal_outcome c)
       then lit "HIGH"
       else if raised (negotiation_outcome c) then lit "MEDIUM"
       else lit "UNKNOWN") /\
  risk_color (overall_risk res)
    = (if raised (structure_outcome c) || raised (legal_outcome c)
       then lit "red"
       else if raised (negotiation_outcome c) then lit "orange"
       else lit "normal").
Proof.
  unfold final_result, entries, specialist_successes.
  destruct c as [[r1|x1] [r2|x2] [r3|x3] [r4|x4] e4];
    cbn [manager_outcome structure_outcome legal_outcome negotiation_outcome
         structure_entry legal_entry negotiation_entry raised];
    repeat (split; [vm_compute; reflexivity|]); vm_compute; reflexivity.
Qed.

(** X11: the metrics row of a run, given that [st.metric] accepts the calls
    that pass no delta colour.  The first three metrics are always shown:
    the number of characters of the contract text, the number of
    specialist calls that returned out of 3, and the average confidence.
    The fourth call passes the delta colour red when the structure or the
    legal call raised, orange when only the negotiation call raised and
    normal otherwise, and the row is whole exactly when the installed
    Streamlit accepts that call; when it rejects it, the function raises
    after three metrics. *)
Theorem metrics_of_a_run system contract_text contract_name w page :
  (forall label value, st_metric_raises label value None = None) ->
  let c := run_calls system contract_text contract_name w in
  let failed_high := raised (structure_outcome c) || raised (legal_outcome c) in
  let risk :=
    if failed_high then lit "HIGH"
    else if raised (negotiation_outcome c) then lit "MEDIUM"
    else lit "UNKNOWN" in
  let color :=
    if failed_high then lit "red"
    else if raised (negotiation_outcome c) then lit "orange"
    else lit "normal" in
  exists res w',
    analyze_contract system contract_text contract_name w = (Returns res, w') /\
    let first_three :=
      [ st_metric (lit "📄 Contract Length")
          (format_thousands (length contract_text) ++ lit " chars") None;
        st_metric (lit "🤖 Agent Success")
          (str_of_nat (specialist_successes c) ++ lit "/3") None;
        st_metric (lit "🎯 Avg Confidence")
          (format_percent1
             (avg_confidence (confidence_score <$> agent_responses res))) None ] in
    create_analysis_metrics res page
    = match st_metric_raises (lit "⚠️ Risk Level") risk (Some color) with
      | Some e => (Raises e, page ++ first_three)
      | None =>
          (Returns tt,
           page ++ first_three
           ++ [st_metric (lit "⚠️ Risk Level") risk (Some color)])
      end.
Proof.
  intros Hplain c failed_high risk color.
  destruct (analyze_contract_run system contract_text contract_name w)
    as [out Hrun].
  eexists _, _. split; [exact Hrun|]. fold c. cbn zeta.
  rewrite (create_analysis_metrics_run _ page Hplain).
  rewrite contract_info_length_of_a_run.
  cbn [format_commas]. rewrite format_int_commas_of_nat.
  unfold metrics_row.
  destruct (metrics_inputs_of_a_run contract_name contract_text c (ticks w))
    as (Hcount & Hlen & Hrisk & Hcolor).
  cbn zeta in Hcount, Hlen, Hrisk, Hcolor.
  rewrite Hcolor, Hrisk, Hcount, Hlen.
  fold failed_high. fold risk. fold color.
  destruct (st_metric_raises _ risk (Some color)); reflexivity.
Qed.

(* ===================================================================== *)
(** ** Properties of the construction of the system                       *)
(* ===================================================================== *)

(** The run of the constructor when the three agents can be built. *)
Lemma ContractAnalysisSystem_init_run e structure e1 legal e2 negotiation e3 :
  Agent_new structure_agent_config e = (Returns structure, e1) ->
  Agent_new legal_agent_config e1 = (Returns legal, e2) ->
  Agent_new negotiation_agent_config e2 = (Returns negotiation, e3) ->
  ContractAnalysisSystem_init e
  = match Team_new (manager_agent_config [structure; legal; negotiation]) e3 with
    | (Returns manager, e4) =>
        (Returns {| agents :=
                      <[lit "negotiation" := negotiation]>
                        (<[lit "legal" := legal]>
                           (<[lit "structure" := structure]> ∅));
                    manager_agent := Some manager |}, e4)
    | (Raises x, e4) =>
        (Raises {| exc_str := lit "Failed to initialize agents: " ++ exc_str x |}, e4)
    end.
Proof.
  intros Hs Hl Hn.
  unfold ContractAnalysisSystem_init, _initialize_agents, _create_structure_agent,
    _create_legal_agent, _create_negotiation_agent, _create_manager_agent,
    set_agent, getitem.
  eff_unfold. cbn [agents manager_agent]. rewrite Hs, Hl, Hn.
  rewrite lookup_insert_ne by (by vm_compute).
  rewrite lookup_insert_ne by (by vm_compute).
  rewrite lookup_insert_eq.
  rewrite (lookup_insert_ne _ (lit "negotiation") (lit "legal")) by (by vm_compute).
  rewrite lookup_insert_eq. rewrite lookup_insert_eq.
  by destruct (Team_new _ e3) as [[manager|x] e4].
Qed.

(** X12: a system the constructor returns holds exactly the agents
    structure, legal and negotiation and a manager, built in this order
    with the configurations of the source, the manager over these three
    members; on such a system no step of a run can fail on a missing
    agent: each call is the [run] of the agent that was built. *)
Theorem constructed_system_has_every_agent e system e' :
  ContractAnalysisSystem_init e = (Returns system, e') ->
  exists structure legal negotiation manager e1 e2 e3,
    Agent_new structure_agent_config e = (Returns structure, e1) /\
    Agent_new legal_agent_config e1 = (Returns legal, e2) /\
    Agent_new negotiation_agent_config e2 = (Returns negotiation, e3) /\
    Team_new (manager_agent_config [structure; legal; negotiation]) e3
      = (Returns manager, e') /\
    dom (agents system)
      = ({[ lit "structure"; lit "legal"; lit "negotiation" ]} : gset str) /\
    (forall prompt,
       agents_run system (lit "structure") prompt = run structure prompt /\
       agents_run system (lit "legal") prompt = run legal prompt /\
       agents_run system (lit "negotiation") prompt = run negotiation prompt /\
       manager_run system prompt = run manager prompt).
Proof.
  intros Hinit.
  destruct (Agent_new structure_agent_config e) as [[structure|x] e1] eqn:Hs.
  2: { unfold ContractAnalysisSystem_init, _initialize_agents,
         _create_structure_agent in Hinit.
       revert Hinit. eff_unfold. by rewrite Hs. }
  destruct (Agent_new legal_agent_config e1) as [[legal|x] e2] eqn:Hl.
  2: { unfold ContractAnalysisSystem_init, _initialize_agents,
         _create_structure_agent, _create_legal_agent in Hinit.
       revert Hinit. eff_unfold. by rewrite Hs, Hl. }
  destruct (Agent_new negotiation_agent_config e2) as [[negotiation|x] e3] eqn:Hn.
  2: { unfold ContractAnalysisSystem_init, _initialize_agents,
         _create_structure_agent, _create_legal_agent,
         _create_negotiation_agent in Hinit.
       revert Hinit. eff_unfold. by rewrite Hs, Hl, Hn. }
  rewrite (ContractAnalysisSystem_init_run e structure e1 legal e2 negotiation e3
             Hs Hl Hn) in Hinit.
  destruct (Team_new _ e3) as [[manager|x] e4] eqn:Hm; [|discriminate].
  injection Hinit as <- <-.
  exists structure, legal, negotiation, manager, e1, e2, e3.
  do 4 (split; [done|]). split.
  - cbn [agents]. rewrite !dom_insert_L, dom_empty_L. set_solver.
  - intros prompt. unfold agents_run, manager_run, getitem. eff_unfold.
    cbn [agents manager_agent].
    rewrite lookup_insert_eq.
    rewrite (lookup_insert_ne _ (lit "negotiation") (lit "legal")) by (by vm_compute).
    rewrite lookup_insert_eq.
    rewrite (lookup_insert_ne _ (lit "negotiation") (lit "structure"))
      by (by vm_compute).
    rewrite (lookup_insert_ne _ (lit "legal") (lit "structure")) by (by vm_compute).
    rewrite lookup_insert_eq. done.
Qed.

(** X13: the constructor stops at the first agent that cannot be built:
    the agents after it are not constructed, and the exception it raises
    carries the original message after "Failed to initialize agents: ". *)
Theorem constructor_stops_at_first_failure e :
  let wrapped x :=
    {| exc_str := lit "Failed to initialize agents: " ++ exc_str x |} in
  (forall x e1,
     Agent_new structure_agent_config e = (Raises x, e1) ->
     ContractAnalysisSystem_init e = (Raises (wrapped x), e1)) /\
  (forall structure e1 x e2,
     Agent_new structure_agent_config e = (Returns structure, e1) ->
     Agent_new legal_agent_config e1 = (Raises x, e2) ->
     ContractAnalysisSystem_init e = (Raises (wrapped x), e2)) /\
  (forall structure e1 legal e2 x e3,
     Agent_new structure_agent_config e = (Returns structure, e1) ->
     Agent_new legal_agent_config e1 = (Returns legal, e2) ->
     Agent_new negotiation_agent_config e2 = (Raises x, e3) ->
     ContractAnalysisSystem_init e = (Raises (wrapped x), e3)) /\
  (forall structure e1 legal e2 negotiation e3 x e4,
     Agent_new structure_agent_config e = (Returns structure, e1) ->
     Agent_new legal_agent_config e1 = (Returns legal, e2) ->
     Agent_new negotiation_agent_config e2 = (Returns negotiation, e3) ->
     Team_new (manager_agent_config [structure; legal; negotiation]) e3
       = (Raises x, e4) ->
     ContractAnalysisSystem_init e = (Raises (wrapped x), e4)).
Proof.
  intros wrapped. split; [|split; [|split]].
  - intros x e1 Hs.
    unfold ContractAnalysisSystem_init, _initialize_agents, _create_structure_agent.
    eff_unfold. by rewrite Hs.
  - intros structure e1 x e2 Hs Hl.
    unfold ContractAnalysisSystem_init, _initialize_agents, _create_structure_agent,
      _create_legal_agent.
    eff_unfold. by rewrite Hs, Hl.
  - intros structure e1 legal e2 x e3 Hs Hl Hn.
    unfold ContractAnalysisSystem_init, _initialize_agents, _create_structure_agent,
      _create_legal_agent, _create_negotiation_agent.
    eff_unfold. by rewrite Hs, Hl, Hn.
  - intros structure e1 legal e2 negotiation e3 x e4 Hs Hl Hn Hm.
    rewrite (ContractAnalysisSystem_init_run e structure e1 legal e2 negotiation e3
               Hs Hl Hn).
    by rewrite Hm.
Qed.

(** X14: the names recorded in the result of a run are the names the
    agents are constructed with: each response carries the configured name
    of its agent, the traceability map maps each specialist role to it,
    and the manager role to the name of the team, followed by " (FAILED)"
    when the manager call raised. *)
Theorem recorded_names_are_the_configured_names
    system contract_text contract_name w members :
  let c := run_calls system contract_text contract_name w in
  exists res w',
    analyze_contract system contract_text contract_name w = (Returns res, w') /\
    agent_name <$> agent_responses res
      = cfg_name <$> [structure_agent_config; legal_agent_config;
                      negotiation_agent_config] /\
    traceability_map res !! lit "structure_agent"
      = Some (cfg_name structure_agent_config) /\
    traceability_map res !! lit "legal_agent"
      = Some (cfg_name legal_agent_config) /\
    traceability_map res !! lit "negotiation_agent"
      = Some (cfg_name negotiation_agent_config) /\
    traceability_map res !! lit "manager_agent"
      = Some (team_name (manager_agent_config members)
              ++ (if raised (manager_outcome c) then lit " (FAILED)" else [])).
Proof.
  intros c. subst c.
  run_cases system contract_text contract_name w;
    repeat (split; [vm_compute; reflexivity|]); vm_compute; reflexivity.
Qed.

(** X15: [initialize_system] never raises.  It returns [True] and stores
    the system in the session exactly when the constructor returns;
    otherwise it returns [False], leaves the session as it was and shows
    two errors, the first with the message of the constructor. *)
Theorem initialize_system_never_raises app :
  let page := app_page app ++ [st_spinner (lit "🚀 Initializing Multi-Agent System...")] in
  match ContractAnalysisSystem_init (env (app_world app)) with
  | (Returns system, e') =>
      initialize_system app
      = (Returns true,
         {| app_world :=
              {| env := e'; ticks := ticks (app_world app);
                 stdout := stdout (app_world app) |};
            app_page :=
              page ++ [st_success (lit "✅ All agents initialized successfully!")];
            app_session :=
              {| state_system := Some system;
                 state_analysis_history := state_analysis_history (app_session app);
                 state_current_analysis := state_current_analysis (app_session app) |} |})
  | (Raises x, e') =>
      initialize_system app
      = (Returns false,
         {| app_world :=
              {| env := e'; ticks := ticks (app_world app);
                 stdout := stdout (app_world app) |};
            app_page :=
              page ++ [st_error (lit "❌ Failed to initialize system: " ++ exc_str x);
                       st_error (lit "Please check your API keys and dependencies")];
            app_session := app_session app |})
  end.
Proof.
  intros page. unfold initialize_system, set_state_system, on_page, in_world, show.
  eff_unfold. cbn.
  destruct (ContractAnalysisSystem_init (env (app_world app))) as [[system|x] e'];
    cbn; unfold page; by rewrite <- ?app_assoc.
Qed.

(* ===================================================================== *)
(** ** Properties of the upload                                           *)
(* ===================================================================== *)

Lemma extract_text_from_pdf_returns pdf_path w :
  exists text w', extract_text_from_pdf pdf_path w = (Returns text, w').
Proof.
  destruct (os_path_exists pdf_path (env w)) eqn:Hexists.
  2: { unfold extract_text_from_pdf. eff_unfold. cbn. rewrite Hexists. cbn.
       by eexists _, _. }
  destruct (os_access_R_OK pdf_path (env w)) eqn:Hread.
  2: { unfold extract_text_from_pdf. eff_unfold. cbn. rewrite Hexists. cbn.
       rewrite Hread. cbn. by eexists _, _. }
  destruct (PdfReader_pages pdf_path (env w)) as [[pages|e] e1] eqn:Hpages.
  - destruct (extract_text_from_pdf_readable pdf_path w pages e1 Hexists Hread Hpages)
      as [out ->].
    by eexists _, _.
  - unfold extract_text_from_pdf. eff_unfold. cbn. rewrite Hexists. cbn.
    rewrite Hread. cbn. rewrite Hpages. cbn. by eexists _, _.
Qed.

(** X16: [extract_pdf_text] never raises.  When the temporary file
    "temp_<name>" cannot be written it shows an error and returns [None]
    without extracting.  Once it is written, extraction runs on it and the
    file is then removed whatever extraction gave; the extracted text is
    returned, unless the removal raises: then an error is shown and [None]
    is returned although text had been extracted. *)
Theorem extract_pdf_text_cleans_up uploaded_file app :
  let temp_path := lit "temp_" ++ upload_name uploaded_file in
  let error x := st_error (lit "Error extracting PDF text: " ++ exc_str x) in
  match write_binary temp_path (upload_value uploaded_file) (env (app_world app)) with
  | (Raises x, e1) =>
      extract_pdf_text uploaded_file app
      = (Returns None,
         {| app_world := with_env (app_world app) e1;
            app_page := app_page app ++ [error x];
            app_session := app_session app |})
  | (Returns _, e1) =>
      exists text w2,
        extract_text_from_pdf temp_path (with_env (app_world app) e1)
          = (Returns text, w2) /\
        match Path_unlink temp_path (env w2) with
        | (Returns _, e3) =>
            extract_pdf_text uploaded_file app
            = (Returns text,
               {| app_world := with_env w2 e3;
                  app_page := app_page app;
                  app_session := app_session app |})
        | (Raises x, e3) =>
            extract_pdf_text uploaded_file app
            = (Returns None,
               {| app_world := with_env w2 e3;
                  app_page := app_page app ++ [error x];
                  app_session := app_session app |})
        end
  end.
Proof.
  intros temp_path error.
  unfold extract_pdf_text, on_page, in_world, show. fold temp_path.
  eff_unfold. cbn.
  destruct (write_binary temp_path _ (env (app_world app))) as [[[]|x] e1];
    cbn; [|reflexivity].
  destruct (extract_text_from_pdf_returns temp_path (with_env (app_world app) e1))
    as (text & w2 & Hextract).
  exists text, w2. split; [exact Hextract|].
  unfold with_env in Hextract. rewrite Hextract. cbn.
  by destruct (Path_unlink temp_path (env w2)) as [[[]|x] e3].
Qed.

Lemma extract_pages_cons page_num page rest :
  extract_pages page_num (page :: rest)
  = (try_except
       (page_text <- io (extern (extract_text page)) ;;
        if truthy (strip page_text) then
          append (page_marker page_num) ;;;
          append page_text
        else ret tt)
       (fun page_error =>
          io (print (lit "⚠️  Warning: Could not extract text from page "
                     ++ str_of_nat (page_num + 1) ++ lit ": "
                     ++ exc_str page_error))) ;;;
     extract_pages (S page_num) rest).
Proof. reflexivity. Qed.

(** The page loop with what it prints. *)
Lemma extract_pages_log pages : forall page_num f,
  extract_pages page_num pages f
  = (Returns tt,
     {| world :=
          {| env := snd (page_outcomes pages (env (world f)));
             ticks := ticks (world f);
             stdout := stdout (world f)
                       ++ page_warnings page_num
                            (fst (page_outcomes pages (env (world f)))) |};
        local :=
          local f ++ page_blocks
            (text_pages page_num (fst (page_outcomes pages (env (world f))))) |}).
Proof.
  induction pages as [|page rest IH]; intros page_num [[e t out0] tc].
  - cbn. unfold ret. by rewrite !app_nil_r.
  - rewrite extract_pages_cons. eff_unfold. cbn.
    destruct (extract_text page e) as [[page_text|err] e'] eqn:Hpage; cbn.
    + destruct (truthy (strip page_text)) eqn:Htext; cbn.
      * rewrite (IH (S page_num)). cbn.
        destruct (page_outcomes rest e') as [os e'']. cbn. rewrite Htext. cbn.
        rewrite <- !app_assoc. reflexivity.
      * rewrite (IH (S page_num)). cbn.
        destruct (page_outcomes rest e') as [os e'']. cbn. rewrite Htext. reflexivity.
    + rewrite (IH (S page_num)). cbn.
      destruct (page_outcomes rest e') as [os e'']. cbn.
      rewrite <- app_assoc. reflexivity.
Qed.

(** X17: on a PDF that exists, is readable and has pages,
    [extract_text_from_pdf] prints exactly one warning for each page whose
    extraction raised, in page order, with the page number and the error,
    and after them "No readable text" when no page yielded text; a blank
    page prints nothing.  It does not read the clock. *)
Theorem extract_text_from_pdf_warnings pdf_path w pages e1 :
  os_path_exists pdf_path (env w) = true ->
  os_access_R_OK pdf_path (env w) = true ->
  PdfReader_pages pdf_path (env w) = (Returns pages, e1) ->
  pages <> [] ->
  let outcomes := fst (page_outcomes pages e1) in
  snd (extract_text_from_pdf pdf_path w)
  = {| env := snd (page_outcomes pages e1);
       ticks := ticks w;
       stdout := stdout w ++ page_warnings 0 outcomes
                 ++ match text_pages 0 outcomes with
                    | [] => [lit "❌ Warning: No readable text found in PDF"]
                    | _ :: _ => []
                    end |} /\
  length (page_warnings 0 outcomes)
  = length (filter (fun o => raised o = true) outcomes).
Proof.
  intros Hexists Hread Hpages Hne outcomes. split.
  - unfold extract_text_from_pdf. eff_unfold. cbn.
    rewrite Hexists. cbn. rewrite Hread. cbn. rewrite Hpages. cbn.
    destruct pages as [|page rest]; [exfalso; apply Hne; reflexivity|].
    cbn [length Nat.eqb].
    rewrite (extract_pages_log (page :: rest) 0).
    cbn [local world env ticks stdout app]. fold outcomes.
    destruct (text_pages 0 outcomes) as [|[i t] tp]; cbn.
    + rewrite <- app_assoc. reflexivity.
    + rewrite !app_nil_r. reflexivity.
  - generalize 0. generalize outcomes. clear.
    induction outcomes as [|[t|x] rest IH]; intros k; cbn;
      [reflexivity | apply IH | rewrite IH; reflexivity].
Qed.

(* ===================================================================== *)
(** ** More properties of the file name                                   *)
(* ===================================================================== *)

Lemma contract_name_clean_kept name :
  Forall (fun c => keeps c = true) (contract_name_clean name).
Proof.
  unfold contract_name_clean.
  destruct (strip_spec (filter (fun c => keeps c = true) name))
    as (pre & post & Heq & _).
  assert (Hall : Forall (fun c => keeps c = true)
                   (filter (fun c => keeps c = true) name)).
  { apply Forall_forall. intros c Hc.
    apply list_elem_of_filter in Hc as [Hc _]. exact Hc. }
  rewrite Heq in Hall. apply Forall_app in Hall as [_ Hall].
  apply Forall_app in Hall as [Hall _]. exact Hall.
Qed.

Lemma filter_all {A} (P : A -> Prop) `{forall x, Decision (P x)} (l : list A) :
  Forall P l -> filter P l = l.
Proof.
  induction 1 as [|x l Hx Hl IH]; [reflexivity|].
  rewrite filter_cons_True by exact Hx. by rewrite IH.
Qed.

Lemma lstrip_id s :
  (forall c, head s = Some c -> isspace c = false) -> lstrip s = s.
Proof.
  destruct s as [|c s]; [reflexivity|]. intros Hhead. cbn.
  by rewrite (Hhead c eq_refl).
Qed.

Lemma strip_id s :
  (forall c, head s = Some c -> isspace c = false) ->
  (forall c, last s = Some c -> isspace c = false) ->
  strip s = s.
Proof.
  intros Hhead Hlast. unfold strip, rstrip. rewrite (lstrip_id s Hhead).
  rewrite lstrip_id; [apply reverse_involutive|].
  intros c Hc. rewrite head_reverse in Hc. by apply Hlast.
Qed.

(** X18: cleaning a contract name is idempotent: a name that has been
    cleaned once is left unchanged by a second cleaning. *)
Theorem contract_name_clean_idempotent name :
  contract_name_clean (contract_name_clean name) = contract_name_clean name.
Proof.
  pose proof (contract_name_clean_kept name) as Hkept.
  unfold contract_name_clean at 1.
  rewrite (filter_all _ _ Hkept).
  unfold contract_name_clean.
  destruct (strip_spec (filter (fun c => keeps c = true) name))
    as (pre & post & _ & _ & _ & Hhead & Hlast).
  by apply strip_id.
Qed.

(** X19: the file name of a saved analysis cannot leave the output
    directory or change its extension, whatever the contract name: it
    holds no slash, backslash or NUL, and its only dot is that of the
    final ".json". *)
Theorem analysis_filename_is_safe name d :
  let filename :=
    analysis_filename (contract_name_clean name) (strftime_Ymd_HMS d) in
  Forall (fun c => c <> 47%N /\ c <> 92%N /\ c <> 0%N) filename /\
  exists stem,
    filename = stem ++ lit ".json" /\ Forall (fun c => c <> 46%N) stem.
Proof.
  intros filename.
  assert (Hclean : Forall (fun c => c <> 47%N /\ c <> 92%N /\ c <> 0%N /\ c <> 46%N)
                     (contract_name_clean name)).
  { eapply Forall_impl; [apply contract_name_clean_kept|].
    intros c Hc. repeat split; intros ->; vm_compute in Hc; discriminate Hc. }
  assert (Hstamp : Forall (fun c => c <> 47%N /\ c <> 92%N /\ c <> 0%N /\ c <> 46%N)
                     (strftime_Ymd_HMS d)).
  { destruct (strftime_Ymd_HMS_shape d) as (date & time & -> & _ & _ & Hdigits).
    apply Forall_app in Hdigits as [Hdate Htime].
    assert (Hdigit : forall c, is_ascii_digit c = true ->
              c <> 47%N /\ c <> 92%N /\ c <> 0%N /\ c <> 46%N).
    { intros c Hc. unfold is_ascii_digit in Hc.
      apply andb_prop in Hc as [Hlo Hhi].
      apply N.leb_le in Hlo, Hhi. repeat split; lia. }
    apply Forall_app. split; [eapply Forall_impl; [exact Hdate|exact Hdigit]|].
    apply Forall_cons. split; [repeat split; discriminate|].
    eapply Forall_impl; [exact Htime|exact Hdigit]. }
  assert (Hprefix : Forall (fun c => c <> 47%N /\ c <> 92%N /\ c <> 0%N /\ c <> 46%N)
                      (lit "contract_analysis_")).
  { apply Forall_forall. intros c Hc. apply list_elem_of_In in Hc.
    vm_compute in Hc. repeat split; intros ->;
      repeat (destruct Hc as [Hc|Hc]; [discriminate Hc|]); exact Hc. }
  assert (Hsep : Forall (fun c => c <> 47%N /\ c <> 92%N /\ c <> 0%N /\ c <> 46%N)
                   (lit "_")).
  { apply Forall_cons. split; [repeat split; discriminate|constructor]. }
  assert (Hstem : Forall (fun c => c <> 47%N /\ c <> 92%N /\ c <> 0%N /\ c <> 46%N)
                    (lit "contract_analysis_" ++ contract_name_clean name
                     ++ lit "_" ++ strftime_Ymd_HMS d)).
  { apply Forall_app. split; [exact Hprefix|].
    apply Forall_app. split; [exact Hclean|].
    apply Forall_app. split; [exact Hsep|exact Hstamp]. }
  split.
  - unfold filename, analysis_filename.
    rewrite !app_assoc. apply Forall_app. split.
    + rewrite <- !app_assoc. eapply Forall_impl; [exact Hstem|].
      intros c (H1 & H2 & H3 & _). by repeat split.
    + repeat (apply Forall_cons; split; [repeat split; discriminate|]).
      constructor.
  - exists (lit "contract_analysis_" ++ contract_name_clean name
            ++ lit "_" ++ strftime_Ymd_HMS d).
    split; [unfold filename, analysis_filename; by rewrite <- !app_assoc|].
    eapply Forall_impl; [exact Hstem|]. by intros c (_ & _ & _ & H4).
Qed.

End System.

Arguments World : clear implicits.
Arguments Frame : clear implicits.
Arguments Page : clear implicits.
Arguments Agent : clear implicits.
Arguments ContractAnalysisSystem : clear implicits.
Arguments Calls : clear implicits.
Arguments App : clear implicits.
Arguments SessionState : clear implicits.
Arguments TeamConfig : clear implicits.

(* ===================================================================== *)
(** ** Concrete runs                                                      *)
(* ===================================================================== *)

Module Demo.

(** The environment counts the external calls made so far; the clock
    advances one second per reading. *)
Definition clock (k : nat) : datetime :=
  {| year := 2024; month := 3; day := 7;
     hour := 9; minute := 5; second := N.of_nat k; microsecond := 0 |}.

Definition dict_str (d : gmap str value) : str := lit "{...}".

Definition w0 : World nat := {| env := 0; ticks := 0; stdout := [] |}.

Definition replies (reply : str) : Agent nat :=
  {| run := fun _ e =>
       (Returns {| content := Some (VStr reply); response_str := reply |}, S e) |}.

Definition fails (message : str) : Agent nat :=
  {| run := fun _ e => (Raises {| exc_str := message |}, S e) |}.

(** The legal model times out and the manager is rate limited. *)
Definition system : ContractAnalysisSystem nat :=
  {| agents :=
       {[ lit "structure" := replies (lit "two parties, net 30");
          lit "legal" := fails (lit "timeout");
          lit "negotiation" := replies (lit "ask for net 45") ]};
     manager_agent := Some (fails (lit "rate limit")) |}.

(** A four-page PDF: text, a page that cannot be decoded, a blank page,
    text. *)
Definition page (page_text : str) : Page nat :=
  {| extract_text := fun e => (Returns page_text, S e) |}.

Definition broken_page : Page nat :=
  {| extract_text := fun e => (Raises {| exc_str := lit "bad stream" |}, S e) |}.

Definition pages : list (Page nat) :=
  [page (lit "Hello"); broken_page; page (lit "   "); page (lit "World")].

Definition os_path_exists (p : str) (e : nat) : bool := true.
Definition os_access_R_OK (p : str) (e : nat) : bool := true.
Definition PdfReader_pages (p : str) : M nat (list (Page nat)) :=
  fun e => (Returns pages, S e).

(** A file system on which every step of the persistence succeeds. *)
Definition unicode_isalnum (c : char) : bool := false.
Definition Path_mkdir (d : str) : M nat unit := fun e => (Returns tt, S e).
Definition Path_joined (d f : str) : str := d ++ lit "/" ++ f.
Definition open_w (p : str) : M nat unit := fun e => (Returns tt, S e).
Definition json_dump (v : value) (p : str) : M nat unit := fun e => (Returns tt, S e).


(** The value a computation returned, if it did. *)
Definition returned {A} (r : Result A) : option A :=
  match r with
  | Returns a => Some a
  | Raises _ => None
  end.

Example format_thousands_1234567 :
  format_thousands 1234567 = lit "1,234,567" /\ format_thousands 999 = lit "999".
Proof. split; vm_compute; reflexivity. Qed.

Example isoformat_clock_3 :
  isoformat (clock 3) = lit "2024-03-07T09:05:03".
Proof. vm_compute. reflexivity. Qed.

Example strip_tabs_and_spaces :
  strip ([9%N] ++ lit "  a b " ++ newline) = lit "a b".
Proof. vm_compute. reflexivity. Qed.

Example analyze_contract_demo_risk_levels :
  (fun res => (risk_level <$> agent_responses res,
               traceability_map res !! lit "manager_agent"))
    <$> returned (fst (analyze_contract clock dict_str system (lit "text") (lit "NDA") w0))
  = Some ([lit "PENDING"; lit "HIGH"; lit "PENDING"],
          Some (lit "ContractAnalysisManager (FAILED)")).
Proof. vm_compute. reflexivity. Qed.

Example analyze_contract_demo_calls :
  env (snd (analyze_contract clock dict_str system (lit "text") (lit "NDA") w0)) = 4.
Proof. vm_compute. reflexivity. Qed.

Example extract_text_from_pdf_demo_log :
  stdout (snd (extract_text_from_pdf os_path_exists os_access_R_OK PdfReader_pages
                 (lit "a.pdf") w0))
  = [lit "⚠️  Warning: Could not extract text from page 2: bad stream"].
Proof. vm_compute. reflexivity. Qed.

Example save_analysis_results_demo_missing_name :
  save_analysis_results clock unicode_isalnum Path_mkdir Path_joined open_w json_dump
    {| contract_info := ∅; agent_responses := []; consolidated_findings := ∅;
       priority_recommendations := []; risk_assessment := ∅;
       traceability_map := ∅; analysis_timestamp := isoformat (clock 0) |}
    (lit "out") w0
  = (Returns None,
     {| env := 1; ticks := 1;
        stdout := [lit "❌ Error saving analysis results: 'name'"] |}).
Proof. vm_compute. reflexivity. Qed.

(** C4 on the demo system, whose manager call raises. *)
Lemma manager_failure_partial_result_witness :
  exists res w',
    analyze_contract clock dict_str system (lit "text") (lit "NDA") w0
      = (Returns res, w') /\
    risk_assessment res !! lit "overall_risk"
      = Some (VStr (lit "UNKNOWN" ++ lit " - Analysis incomplete")) /\
    traceability_map res !! lit "manager_agent"
      = Some (lit "ContractAnalysisManager" ++ lit " (FAILED)").
Proof.
  destruct (manager_failure_partial_result clock dict_str system
              (lit "text") (lit "NDA") w0 {| exc_str := lit "rate limit" |})
    as (res & w' & Hrun & _ & _ & Hrisk & Hmanager & _).
  - vm_compute. reflexivity.
  - exists res, w'. split; [exact Hrun|]. split; [exact Hrisk | exact Hmanager].
Defined.

(** C4 as stated fails on the same run: the overall risk recorded is not
    the string "UNKNOWN" but "UNKNOWN - Analysis incomplete". *)
Lemma overall_risk_is_not_bare_unknown_counterexample :
  manager_outcome (run_calls clock dict_str system (lit "text") (lit "NDA") w0)
    = Raises {| exc_str := lit "rate limit" |} /\
  (fun res => risk_assessment res !! lit "overall_risk")
    <$> returned (fst (analyze_contract clock dict_str system
                         (lit "text") (lit "NDA") w0))
    = Some (Some (VStr (lit "UNKNOWN - Analysis incomplete"))) /\
  (fun res => risk_assessment res !! lit "overall_risk")
    <$> returned (fst (analyze_contract clock dict_str system
                         (lit "text") (lit "NDA") w0))
    <> Some (Some (VStr (lit "UNKNOWN"))).
Proof.
  split; [vm_compute; reflexivity|]. split; [vm_compute; reflexivity|].
  vm_compute. discriminate.
Qed.

(** C6 on the four-page demo PDF: pages 1 and 4 yield text. *)
Lemma extract_text_from_pdf_page_blocks_witness :
  exists w',
    extract_text_from_pdf os_path_exists os_access_R_OK PdfReader_pages
      (lit "a.pdf") w0
    = (Returns (Some (lit "--- Page 1 ---" ++ [10%N] ++ lit "Hello" ++ [10%N]
                      ++ lit "--- Page 4 ---" ++ [10%N] ++ lit "World")),
       w').
Proof.
  destruct (extract_text_from_pdf_page_blocks os_path_exists os_access_R_OK
              PdfReader_pages (lit "a.pdf") w0 pages 1)
    as ((w' & Hrun & _) & _).
  - reflexivity.
  - reflexivity.
  - reflexivity.
  - vm_compute. discriminate.
  - exists w'. exact Hrun.
Defined.



(** The agent library of the demo: every specialist can be built and
    answers with its own name; the team can be built and is rate limited. *)
Definition Agent_new (config : AgentConfig) : M nat (Agent nat) :=
  fun e => (Returns (replies (cfg_name config)), S e).

Definition Team_new (config : TeamConfig nat) : M nat (Agent nat) :=
  fun e => (Returns (fails (lit "rate limit")), S e).

Definition built_system : ContractAnalysisSystem nat :=
  {| agents :=
       {[ lit "negotiation" := replies (lit "NegotiationAgent");
          lit "legal" := replies (lit "LegalFrameworkAgent");
          lit "structure" := replies (lit "ContractStructureAgent") ]};
     manager_agent := Some (fails (lit "rate limit")) |}.

Example ContractAnalysisSystem_init_demo :
  ContractAnalysisSystem_init Agent_new Team_new 0 = (Returns built_system, 4).
Proof. vm_compute. reflexivity. Qed.

Example ContractAnalysisSystem_init_demo_failure :
  ContractAnalysisSystem_init
    (fun config e =>
       if bool_decide (cfg_name config = lit "LegalFrameworkAgent")
       then (Raises {| exc_str := lit "MISTRAL_API_KEY not set" |}, S e)
       else Agent_new config e)
    Team_new 0
  = (Raises {| exc_str := lit "Failed to initialize agents: MISTRAL_API_KEY not set" |},
     2).
Proof. vm_compute. reflexivity. Qed.

Example replace_examples :
  replace (lit "Agent") [] (lit "LegalFrameworkAgent") = lit "LegalFramework" /\
  replace (lit "aa") (lit "b") (lit "aaaaa") = lit "bba" /\
  replace [] (lit "-") (lit "abc") = lit "-a-b-c-" /\
  contains (lit "FAILED") (lit "ContractAnalysisManager (FAILED)") = true /\
  contains (lit "FAILED") (lit "NegotiationAgent") = false.
Proof. repeat split; vm_compute; reflexivity. Qed.

(** X12 on the demo library. *)
Lemma constructed_system_has_every_agent_witness :
  exists manager,
    manager_agent built_system = Some manager /\
    forall prompt, manager_run built_system prompt = run manager prompt.
Proof.
  destruct (constructed_system_has_every_agent Agent_new Team_new 0 built_system 4)
    as (structure & legal & negotiation & manager & e1 & e2 & e3
        & _ & _ & _ & Hteam & _ & Hruns).
  - vm_compute. reflexivity.
  - exists manager. split.
    + injection Hteam as <- _. reflexivity.
    + intros prompt. apply Hruns.
Defined.

(** X17 on the four-page demo PDF: one warning, for page 2. *)
Lemma extract_text_from_pdf_warnings_witness :
  stdout (snd (extract_text_from_pdf os_path_exists os_access_R_OK PdfReader_pages
                 (lit "a.pdf") w0))
  = [] ++ page_warnings 0 (fst (page_outcomes pages 1)) ++ [].
Proof.
  destruct (extract_text_from_pdf_warnings os_path_exists os_access_R_OK
              PdfReader_pages (lit "a.pdf") w0 pages 1) as [Hlog _].
  - reflexivity.
  - reflexivity.
  - reflexivity.
  - discriminate.
  - rewrite Hlog. reflexivity.
Defined.

(** A Streamlit whose [st.metric] accepts the delta colours normal,
    inverse and off only. *)
Definition st_metric_raises (label value : str) (delta_color : option str)
  : option Exc :=
  match delta_color with
  | None => None
  | Some color =>
      if bool_decide (color ∈ [lit "normal"; lit "inverse"; lit "off"]) then None
      else Some {| exc_str := lit "'" ++ color ++ lit "' is not an accepted value." |}
  end.

Definition format_percent1 (x : float) : str := lit "n/a".
Definition format_commas_other (v : value) : Result str := Returns (lit "n/a").

(** X10 on a result without contract information: a [KeyError] and an
    empty page. *)
Lemma create_analysis_metrics_outcomes_witness :
  create_analysis_metrics format_commas_other format_percent1 st_metric_raises
    {| contract_info := ∅; agent_responses := []; consolidated_findings := ∅;
       priority_recommendations := []; risk_assessment := ∅;
       traceability_map := ∅; analysis_timestamp := [] |} []
  = (Raises (KeyError (lit "length")), []).
Proof.
  destruct (create_analysis_metrics_outcomes format_commas_other format_percent1
              st_metric_raises
              {| contract_info := ∅; agent_responses := []; consolidated_findings := ∅;
                 priority_recommendations := []; risk_assessment := ∅;
                 traceability_map := ∅; analysis_timestamp := [] |} [])
    as [Hmissing _].
  - intros label value. reflexivity.
  - apply Hmissing. reflexivity.
Defined.

(** X11 on the demo run, whose legal call raises: the colour passed is
    red, this Streamlit rejects it, and three metrics have been shown. *)
Lemma metrics_of_a_run_witness :
  exists res w',
    analyze_contract clock dict_str system (lit "text") (lit "NDA") w0
      = (Returns res, w') /\
    fst (create_analysis_metrics format_commas_other format_percent1
           st_metric_raises res [])
      = Raises {| exc_str := lit "'red' is not an accepted value." |} /\
    length (snd (create_analysis_metrics format_commas_other format_percent1
                   st_metric_raises res [])) = 3.
Proof.
  destruct (metrics_of_a_run clock dict_str format_commas_other format_percent1
              st_metric_raises system (lit "text") (lit "NDA") w0 [])
    as (res & w' & Hrun & Hrow).
  - intros label value. reflexivity.
  - exists res, w'. split; [exact Hrun|].
    cbv zeta in Hrow. rewrite Hrow. split; vm_compute; reflexivity.
Defined.

End Demo.
